(** * Proof-of-origin: the State Tracker and the Pattern Analyzer

    A shallow embedding of [state_tracker.py] and [pattern_analyzer.py],
    and the properties of the two that the specification states.

    Conventions of the embedding.
    - A Python method of [StateTracker] is a computation in the monad [M]:
      it reads and writes the tracker's world (the attribute
      [self.state_data], the file behind [self.state_file], the clock and
      the file system's answers to writes) and either returns a value or
      raises.
    - The state document is the dictionary that [_create_initial_state]
      lays out; it is a record with one field per key.  The two
      dictionaries that the code uses as maps ([dimensions] and each
      dimension's own mapping) are finite maps.
    - Text is a [string]; the characters are taken to be ASCII where the
      code looks at them one by one ([lower], [split], [strip], [len]).
    - [print] calls are left out: nothing reads what they write. *)

From Stdlib Require Import ZArith String Ascii List Lia.
From Stdlib Require Import Floats.PrimFloat.
From Stdlib Require Import Floats.SpecFloat Floats.FloatOps.
From Stdlib Require Import DecimalString.
From Stdlib Require Import Sorting.Sorted.
From stdpp Require Import base option list gmap strings.
From stdpp Require Import sorting.

Local Open Scope Z_scope.

(** ** Values of type [Any]

    What [update_dimension] stores under a key, and what
    [detectedPatterns] may hold: any value [json.load] can produce. *)
#[warnings="-register-all"]
Inductive json : Type :=
  | JNull
  | JBool (b : bool)
  | JInt (z : Z)
  | JFloat (f : float)
  | JStr (s : string)
  | JList (l : list json)
  | JDict (kvs : list (string * json)).

Module StateTracker.

(** ** The state document *)

(** One entry of ["stateHistory"], as [add_state_event] builds it. *)
Record history_entry : Type := HistoryEntry {
  he_timestamp : string;
  he_state : string;
  he_event : string;
  he_ethicalCompliance : bool;
  he_notes : string
}.

(** One entry of ["patterns"]["emergent"], as [detect_pattern] builds it. *)
Record emergent_entry : Type := EmergentEntry {
  pe_timestamp : string;
  pe_type : string;
  pe_description : string;
  pe_confidence : float;
  pe_recursiveDepth : Z
}.

(** The value under ["currentState"]. *)
Record current_state : Type := CurrentState {
  state : string;
  genaMode : bool;
  activeCommitments : Z;
  lastEvaluation : string;
  ethicalStatus : string;
  evolutionaryStage : string
}.

(** The value under ["patterns"]["recursive"]. *)
Record recursive : Type := Recursive {
  depth : Z;
  maxDepth : Z;
  detectedPatterns : list json
}.

(** The value under ["patterns"]. *)
Record patterns : Type := Patterns {
  emergent : list emergent_entry;
  recursive_ : recursive
}.

(** The whole document. *)
Record document : Type := Document {
  version : string;
  stateHistory : list history_entry;
  currentState : current_state;
  patterns_ : patterns;
  dimensions : gmap string (gmap string json)
}.

(** Assignments to one key, the rest of the document kept. *)
Definition set_state (s : string) (d : document) : document :=
  let c := currentState d in
  Document (version d) (stateHistory d)
    (CurrentState s (genaMode c) (activeCommitments c) (lastEvaluation c)
       (ethicalStatus c) (evolutionaryStage c))
    (patterns_ d) (dimensions d).

Definition set_lastEvaluation (t : string) (d : document) : document :=
  let c := currentState d in
  Document (version d) (stateHistory d)
    (CurrentState (state c) (genaMode c) (activeCommitments c) t
       (ethicalStatus c) (evolutionaryStage c))
    (patterns_ d) (dimensions d).

Definition set_stateHistory (h : list history_entry) (d : document) : document :=
  Document (version d) h (currentState d) (patterns_ d) (dimensions d).

Definition set_emergent (e : list emergent_entry) (d : document) : document :=
  Document (version d) (stateHistory d) (currentState d)
    (Patterns e (recursive_ (patterns_ d))) (dimensions d).

Definition set_depth (n : Z) (d : document) : document :=
  let r := recursive_ (patterns_ d) in
  Document (version d) (stateHistory d) (currentState d)
    (Patterns (emergent (patterns_ d))
       (Recursive n (maxDepth r) (detectedPatterns r)))
    (dimensions d).

Definition set_dimensions (m : gmap string (gmap string json)) (d : document)
  : document :=
  Document (version d) (stateHistory d) (currentState d) (patterns_ d) m.

(** ** The world a tracker runs in *)

(** The file behind [self.state_file]: absent; present but not readable as
    JSON ([open] or [json.load] raises something other than
    [FileNotFoundError]); or present and holding what [json.load] returns.
    A readable file holds a state document, or [null], which [json.load]
    returns as [None].  The text itself is not modelled: [json.load] is
    taken to give back the value a completed [json.dump] wrote. *)
Inductive file : Type :=
  | Missing
  | Unreadable
  | Holds (content : option document).

(** How one run of [save_state]'s [with open(..., 'w')] block ends: the dump
    completes; [open] raises, and the file is as it was; or [open] has
    truncated the file and [json.dump] raises before the text is complete. *)
Inductive write_outcome : Type :=
  | WriteOk
  | OpenFails
  | DumpFails.

Record world : Type := World {
  state_data : option document;   (* self.state_data, None until loaded *)
  disk : file;                    (* the file at self.state_file *)
  clock_reads : nat;              (* calls of datetime.utcnow() so far *)
  write_attempts : nat            (* runs of save_state's with-block so far *)
}.

(** The exceptions the modelled code can raise: subscripting [None]. *)
Inductive exn : Type :=
  | TypeError.

Inductive outcome (A : Type) : Type :=
  | Returned (a : A)
  | Raised (e : exn).
Arguments Returned {A} a.
Arguments Raised {A} e.

(** State and exceptions: a raise keeps the world as it was left. *)
Definition M (A : Type) : Type := world -> outcome A * world.

#[local] Instance M_ret : MRet M := fun A a w => (Returned a, w).
#[local] Instance M_bind : MBind M := fun A B f c w =>
  match c w with
  | (Returned a, w') => f a w'
  | (Raised e, w') => (Raised e, w')
  end.

Definition raise {A : Type} (e : exn) : M A := fun w => (Raised e, w).
Definition gets {A : Type} (f : world -> A) : M A := fun w => (Returned (f w), w).
Definition modify (f : world -> world) : M unit := fun w => (Returned tt, f w).

Definition put_state_data (d : option document) : M unit :=
  modify (fun w => World d (disk w) (clock_reads w) (write_attempts w)).
Definition put_disk (f : file) : M unit :=
  modify (fun w => World (state_data w) f (clock_reads w) (write_attempts w)).

(** [self.state_data[...]]: subscripting raises [TypeError] on [None]. *)
Definition the_document : M document :=
  sd ← gets state_data;
  match sd with
  | Some d => mret d
  | None => raise TypeError
  end.

(** In-place mutation of the dictionary [self.state_data] refers to. *)
Definition put_document (d : document) : M unit := put_state_data (Some d).

Section Tracker.

(** [utcnow k]: the text [datetime.utcnow().isoformat()] gives at the
    [k]-th reading of the clock; [write_result k]: how the [k]-th write of
    the state file ends. *)
Variable utcnow : nat -> string.
Variable write_result : nat -> write_outcome.

Definition utcnow_isoformat : M string := fun w =>
  (Returned (utcnow (clock_reads w)),
   World (state_data w) (disk w) (S (clock_reads w)) (write_attempts w)).

Definition next_write_result : M write_outcome := fun w =>
  (Returned (write_result (write_attempts w)),
   World (state_data w) (disk w) (clock_reads w) (S (write_attempts w))).

Definition initial_dimensions : gmap string (gmap string json) :=
  <["temporal" := ∅]> (<["spatial" := ∅]> (<["conceptual" := ∅]>
    (<["relational" := ∅]> (<["ethical" := ∅]> ∅)))).

Definition initial_document (now : string) : document :=
  {| version := "1.0.0";
     stateHistory := [];
     currentState :=
       {| state := "initialized";
          genaMode := true;
          activeCommitments := 5;
          lastEvaluation := now +:+ "Z";
          ethicalStatus := "compliant";
          evolutionaryStage := "genesis" |};
     patterns_ :=
       {| emergent := [];
          recursive_ := {| depth := 0; maxDepth := 5; detectedPatterns := [] |} |};
     dimensions := initial_dimensions |}.

Definition _create_initial_state : M document :=
  now ← utcnow_isoformat;
  mret (initial_document now).

(** [load_state]: the three arms of the [try]. *)
Definition load_state : M bool :=
  f ← gets disk;
  match f with
  | Holds content => put_state_data content;; mret true
  | Missing =>
      d ← _create_initial_state;
      put_state_data (Some d);;
      mret true
  | Unreadable => mret false
  end.

Definition save_state : M bool :=
  sd ← gets state_data;
  r ← next_write_result;
  match r with
  | WriteOk => put_disk (Holds sd);; mret true
  | OpenFails => mret false
  | DumpFails => put_disk Unreadable;; mret false
  end.

(** [if not self.state_data: self.load_state()].  A document is a
    dictionary with keys, hence true; only [None] is false.  The result of
    [load_state] is dropped, as in the code. *)
Definition load_if_unset : M unit :=
  sd ← gets state_data;
  match sd with
  | Some _ => mret tt
  | None => load_state;; mret tt
  end.

Definition add_state_event (event notes : string) (ethical_compliant : bool)
  : M bool :=
  load_if_unset;;
  now ← utcnow_isoformat;
  d ← the_document;
  let event_entry :=
    {| he_timestamp := now +:+ "Z";
       he_state := state (currentState d);
       he_event := event;
       he_ethicalCompliance := ethical_compliant;
       he_notes := notes |} in
  put_document (set_stateHistory (stateHistory d ++ [event_entry]) d);;
  d ← the_document;
  put_document (set_lastEvaluation (he_timestamp event_entry) d);;
  save_state.

(** [if reason:] a string is true when it is not empty. *)
Definition nonempty (s : string) : bool :=
  match s with
  | EmptyString => false
  | String _ _ => true
  end.

Definition transition_event (old_state new_state reason : string) : string :=
  let event := "State transition: " +:+ old_state +:+ " → " +:+ new_state in
  if nonempty reason then event +:+ " (" +:+ reason +:+ ")" else event.

Definition update_state (new_state reason : string) : M bool :=
  load_if_unset;;
  d ← the_document;
  let old_state := state (currentState d) in
  put_document (set_state new_state d);;
  add_state_event (transition_event old_state new_state reason) "" true.

Definition detect_pattern (pattern_type description : string)
  (confidence : float) : M bool :=
  load_if_unset;;
  now ← utcnow_isoformat;
  d ← the_document;
  let pattern_entry :=
    {| pe_timestamp := now +:+ "Z";
       pe_type := pattern_type;
       pe_description := description;
       pe_confidence := confidence;
       pe_recursiveDepth := depth (recursive_ (patterns_ d)) |} in
  put_document (set_emergent (emergent (patterns_ d) ++ [pattern_entry]) d);;
  save_state.

Definition increase_recursive_depth : M bool :=
  load_if_unset;;
  d ← the_document;
  let current_depth := depth (recursive_ (patterns_ d)) in
  let max_depth := maxDepth (recursive_ (patterns_ d)) in
  if current_depth <? max_depth then
    put_document (set_depth (current_depth + 1) d);;
    save_state
  else mret false.

Definition update_dimension (dimension key : string) (value : json) : M bool :=
  load_if_unset;;
  d ← the_document;
  match dimensions d !! dimension with
  | None => mret false
  | Some m =>
      put_document
        (set_dimensions (<[dimension := <[key := value]> m]> (dimensions d)) d);;
      save_state
  end.

Definition get_current_state : M current_state :=
  load_if_unset;;
  d ← the_document;
  mret (currentState d).

(** *** Notions the properties are stated with *)

(** The document an operation works on: the one in memory, and when there
    is none, the one the implicit [load_state] brings in. *)
Definition starting_document (w : world) : option document :=
  match state_data w with
  | Some d => Some d
  | None =>
      match disk w with
      | Holds content => content
      | Missing => Some (initial_document (utcnow (clock_reads w)))
      | Unreadable => None
      end
  end.

(** The world once the implicit load has run. *)
Definition after_load (w : world) : world := snd (load_if_unset w).

Definition write_ok (r : write_outcome) : bool :=
  match r with
  | WriteOk => true
  | _ => false
  end.

(** What the file is after a write that ended as [r]. *)
Definition written (r : write_outcome) (sd : option document) (old : file)
  : file :=
  match r with
  | WriteOk => Holds sd
  | OpenFails => old
  | DumpFails => Unreadable
  end.

(** The world after [save_state] has run in [w] with document [d'] in
    memory. *)
Definition after_save (d' : document) (w : world) : world :=
  World (Some d')
    (written (write_result (write_attempts w)) (Some d') (disk w))
    (clock_reads w) (S (write_attempts w)).

(** The five mutating operations of the tracker, with their arguments. *)
Inductive operation : Type :=
  | RecordEvent (event notes : string) (ethical_compliant : bool)
  | Transition (new_state reason : string)
  | DetectPattern (pattern_type description : string) (confidence : float)
  | IncreaseRecursiveDepth
  | SetDimension (dimension key : string) (value : json).

Definition run (op : operation) : M bool :=
  match op with
  | RecordEvent event notes ok => add_state_event event notes ok
  | Transition new_state reason => update_state new_state reason
  | DetectPattern ty descr conf => detect_pattern ty descr conf
  | IncreaseRecursiveDepth => increase_recursive_depth
  | SetDimension dimension key value => update_dimension dimension key value
  end.

(** [n] calls of [increase_recursive_depth] in a row, results in order. *)
Fixpoint increase_times (n : nat) : M (list bool) :=
  match n with
  | O => mret []
  | S n' =>
      b ← increase_recursive_depth;
      bs ← increase_times n';
      mret (b :: bs)
  end.

(** The names [_create_initial_state] declares under ["dimensions"]. *)
Definition predeclared : list string :=
  ["temporal"; "spatial"; "conceptual"; "relational"; "ethical"].

(** The entry [add_state_event] appends for the document [d] at time [now]. *)
Definition event_entry_of (d : document) (now event notes : string)
  (ethical_compliant : bool) : history_entry :=
  {| he_timestamp := now +:+ "Z";
     he_state := state (currentState d);
     he_event := event;
     he_ethicalCompliance := ethical_compliant;
     he_notes := notes |}.

Definition with_event (d : document) (e : history_entry) : document :=
  set_lastEvaluation (he_timestamp e)
    (set_stateHistory (stateHistory d ++ [e]) d).

Definition tick (w : world) : world :=
  World (state_data w) (disk w) (S (clock_reads w)) (write_attempts w).

(** The entry [detect_pattern] appends for the document [d] at time [now]. *)
Definition pattern_entry_of (d : document) (now pattern_type description : string)
  (confidence : float) : emergent_entry :=
  {| pe_timestamp := now +:+ "Z";
     pe_type := pattern_type;
     pe_description := description;
     pe_confidence := confidence;
     pe_recursiveDepth := depth (recursive_ (patterns_ d)) |}.

(** A sequence of operations, one after the other. *)
Fixpoint run_all (ops : list operation) (w : world) : world :=
  match ops with
  | [] => w
  | op :: ops' => run_all ops' (snd (run op w))
  end.

(** The depth counter and its ceiling. *)
Abbreviation depth_of d := (depth (recursive_ (patterns_ d))).
Abbreviation maxDepth_of d := (maxDepth (recursive_ (patterns_ d))).

(** The documents of the data model: the keys of ["dimensions"] are the
    five predeclared names. *)
Definition predeclared_dimensions (d : document) : Prop :=
  dom (dimensions d) = (list_to_set predeclared : gset string).

(** *** Inputs of a first run *)

(** A clock that counts the seconds of one minute, a file system where
    every write goes through, and a tracker that has loaded nothing yet in
    a directory with no state file. *)
Definition second_of (k : nat) : string :=
  "2024-01-01T00:00:0" +:+ NilZero.string_of_uint (Nat.to_uint k).
Definition writes_go_through : nat -> write_outcome := fun _ => WriteOk.
Definition fresh_tracker : world := World None Missing 0 0.
Definition first_document : document := initial_document (second_of 0).

(** A document with a dimension of its own, ["custom"], and without the
    dimension ["ethical"]; and a tracker that has loaded nothing yet and
    finds this document in its state file. *)
Definition custom_document : document :=
  set_dimensions (<["custom" := ∅]> (delete "ethical" initial_dimensions))
    first_document.
Definition loaded_custom_tracker : world :=
  World None (Holds (Some custom_document)) 0 0.

(** C4 as the specification words it, for one call: the name is checked
    against the five predeclared names. *)
Definition dimension_checked_against_five_names
  (w : world) (dimension key : string) (value : json) : Prop :=
  forall d : document,
    starting_document w = Some d ->
    (dimension ∉ predeclared ->
     exists w' : world,
       update_dimension dimension key value w = (Returned false, w') /\
       dimensions <$> state_data w' = Some (dimensions d) /\
       write_attempts w' = write_attempts w) /\
    (dimension ∈ predeclared ->
     exists (w' : world) (d' : document) (m : gmap string json),
       dimensions d !! dimension = Some m /\
       update_dimension dimension key value w
       = (Returned (write_ok (write_result (write_attempts w))), w') /\
       state_data w' = Some d' /\
       dimensions d' !! dimension = Some (<[key := value]> m) /\
       write_attempts w' = S (write_attempts w)).

(** C1 as the specification words it, for one call: the appended entry
    carries the state the document had before the call. *)
Definition entry_stamped_previous_state
  (w : world) (new_state reason : string) : Prop :=
  forall d : document,
    starting_document w = Some d ->
    exists (b : bool) (w' : world) (d' : document) (e : history_entry),
      update_state new_state reason w = (Returned b, w') /\
      state_data w' = Some d' /\
      stateHistory d' = stateHistory d ++ [e] /\
      he_state e = state (currentState d) /\
      state (currentState d') = new_state.

(** *** The summary and the entry point *)

Definition newline : string := String "010"%char EmptyString.

(** [str(n)] for an integer, and for the length of a list. *)
Definition str_int (z : Z) : string := NilZero.string_of_int (Z.to_int z).
Definition str_len {A : Type} (l : list A) : string :=
  NilZero.string_of_uint (Nat.to_uint (length l)).

(** The text [get_state_summary] formats for a document: the lines of its
    f-string, which opens and closes with a line break. *)
Definition summary_of (d : document) : string :=
  let current := currentState d in
  String.concat newline
    [ "";
      "STATE SUMMARY";
      "=============";
      "Current State: " +:+ state current;
      "GENⱯ Mode: " +:+ (if genaMode current then "Active" else "Inactive");
      "Active Commitments: " +:+ str_int (activeCommitments current) +:+ "/5";
      "Ethical Status: " +:+ ethicalStatus current;
      "Evolutionary Stage: " +:+ evolutionaryStage current;
      "Last Evaluation: " +:+ lastEvaluation current;
      "";
      "ANALYTICS";
      "=========";
      "State History Events: " +:+ str_len (stateHistory d);
      "Emergent Patterns Detected: " +:+ str_len (emergent (patterns_ d));
      "Recursive Analysis Depth: " +:+ str_int (depth (recursive_ (patterns_ d)))
        +:+ "/" +:+ str_int (maxDepth (recursive_ (patterns_ d)));
      "" ].

Definition get_state_summary : M string :=
  load_if_unset;;
  d ← the_document;
  mret (summary_of d).

(** [main]: a new tracker, so nothing in memory; the result is what [main]
    itself prints and the status the process ends with. *)
Definition main : M (string * Z) :=
  put_state_data None;;
  loaded ← load_state;
  match loaded with
  | true =>
      summary ← get_state_summary;
      mret (summary, 0)
  | false => mret ("Failed to load state", 1)
  end.

(** *** What an operation makes of the document *)

(** The document an operation leaves in memory, from the one it starts
    with and the time it reads. *)
Definition effect (now : string) (op : operation) (d : document) : document :=
  match op with
  | RecordEvent event notes ok =>
      with_event d (event_entry_of d now event notes ok)
  | Transition new_state reason =>
      let d1 := set_state new_state d in
      with_event d1
        (event_entry_of d1 now
           (transition_event (state (currentState d)) new_state reason) "" true)
  | DetectPattern ty descr conf =>
      set_emergent
        (emergent (patterns_ d) ++ [pattern_entry_of d now ty descr conf]) d
  | IncreaseRecursiveDepth =>
      if depth_of d <? maxDepth_of d then set_depth (depth_of d + 1) d else d
  | SetDimension dimension key value =>
      match dimensions d !! dimension with
      | None => d
      | Some m =>
          set_dimensions (<[dimension := <[key := value]> m]> (dimensions d)) d
      end
  end.

(** The newest history entry agrees with [currentState]: it carries the
    current state, and its timestamp is [lastEvaluation]. *)
Definition history_in_step (d : document) : Prop :=
  match last (stateHistory d) with
  | None => True
  | Some e =>
      he_state e = state (currentState d) /\
      he_timestamp e = lastEvaluation (currentState d)
  end.

(** *** The implicit load *)

Ltac run_M :=
  unfold update_state, add_state_event, detect_pattern,
    increase_recursive_depth, update_dimension, load_if_unset, load_state,
    save_state, _create_initial_state, the_document, put_document,
    put_state_data, put_disk, utcnow_isoformat, next_write_result,
    gets, modify, raise, mbind, M_bind, mret, M_ret in *;
  simpl in *.

Lemma load_if_unset_returns (w : world) :
  load_if_unset w = (Returned tt, after_load w).
Proof.
  unfold after_load. run_M.
  destruct (state_data w); [reflexivity|].
  destruct (disk w); reflexivity.
Qed.

Lemma after_load_document (w : world) :
  state_data (after_load w) = starting_document w.
Proof.
  unfold after_load, starting_document. run_M.
  destruct (state_data w) eqn:E; [exact E|].
  destruct (disk w); simpl; auto.
Qed.

Lemma after_load_disk (w : world) : disk (after_load w) = disk w.
Proof.
  unfold after_load. run_M.
  destruct (state_data w); [reflexivity|].
  destruct (disk w) eqn:E; simpl; auto.
Qed.

Lemma after_load_writes (w : world) :
  write_attempts (after_load w) = write_attempts w.
Proof.
  unfold after_load. run_M.
  destruct (state_data w); [reflexivity|].
  destruct (disk w); reflexivity.
Qed.

Lemma after_load_loaded (w : world) (d : document) :
  state_data w = Some d -> after_load w = w.
Proof. unfold after_load. run_M. intros ->. reflexivity. Qed.

(** *** What each operation does, in full *)

Lemma save_state_spec (w : world) (d : document) :
  state_data w = Some d ->
  save_state w =
    (Returned (write_ok (write_result (write_attempts w))), after_save d w).
Proof.
  intros E. unfold after_save. run_M. rewrite E.
  destruct (write_result (write_attempts w)); reflexivity.
Qed.

Lemma add_state_event_spec (w : world) (d : document)
  (event notes : string) (ok : bool) :
  starting_document w = Some d ->
  let w1 := after_load w in
  let e := event_entry_of d (utcnow (clock_reads w1)) event notes ok in
  add_state_event event notes ok w =
    (Returned (write_ok (write_result (write_attempts w1))),
     after_save (with_event d e) (tick w1)).
Proof.
  intros E. rewrite <- after_load_document in E. simpl.
  unfold add_state_event.
  unfold mbind at 1. unfold M_bind at 1. rewrite load_if_unset_returns.
  destruct (after_load w) as [sd dk cr wa]. simpl in E. subst sd.
  unfold after_save, with_event, event_entry_of, tick. run_M.
  destruct (write_result wa); reflexivity.
Qed.

Lemma update_state_spec (w : world) (d : document) (new_state reason : string) :
  starting_document w = Some d ->
  let w1 := after_load w in
  let d1 := set_state new_state d in
  let e :=
    event_entry_of d1 (utcnow (clock_reads w1))
      (transition_event (state (currentState d)) new_state reason) "" true in
  update_state new_state reason w =
    (Returned (write_ok (write_result (write_attempts w1))),
     after_save (with_event d1 e) (tick w1)).
Proof.
  intros E. rewrite <- after_load_document in E. simpl.
  unfold update_state.
  unfold mbind at 1. unfold M_bind at 1. rewrite load_if_unset_returns.
  destruct (after_load w) as [sd dk cr wa]. simpl in E. subst sd.
  unfold mbind at 1. unfold M_bind at 1. unfold the_document at 1.
  unfold mbind at 1. unfold M_bind at 1. unfold gets at 1.
  cbv beta iota. unfold state_data at 1. unfold mret at 1. unfold M_ret at 1.
  unfold mbind at 1. unfold M_bind at 1.
  unfold put_document, put_state_data, modify. cbv beta iota.
  rewrite (add_state_event_spec _ (set_state new_state d)); [|reflexivity].
  rewrite (after_load_loaded _ (set_state new_state d)); reflexivity.
Qed.

Lemma detect_pattern_spec (w : world) (d : document)
  (pattern_type description : string) (confidence : float) :
  starting_document w = Some d ->
  let w1 := after_load w in
  let e :=
    pattern_entry_of d (utcnow (clock_reads w1)) pattern_type description
      confidence in
  detect_pattern pattern_type description confidence w =
    (Returned (write_ok (write_result (write_attempts w1))),
     after_save (set_emergent (emergent (patterns_ d) ++ [e]) d) (tick w1)).
Proof.
  intros E. rewrite <- after_load_document in E. simpl.
  unfold detect_pattern.
  unfold mbind at 1. unfold M_bind at 1. rewrite load_if_unset_returns.
  destruct (after_load w) as [sd dk cr wa]. simpl in E. subst sd.
  unfold after_save, pattern_entry_of, tick. run_M.
  destruct (write_result wa); reflexivity.
Qed.

Lemma increase_recursive_depth_spec (w : world) (d : document) :
  starting_document w = Some d ->
  let w1 := after_load w in
  let r := recursive_ (patterns_ d) in
  increase_recursive_depth w =
    if depth r <? maxDepth r
    then (Returned (write_ok (write_result (write_attempts w1))),
          after_save (set_depth (depth r + 1) d) w1)
    else (Returned false, w1).
Proof.
  intros E. rewrite <- after_load_document in E. simpl.
  unfold increase_recursive_depth.
  unfold mbind at 1. unfold M_bind at 1. rewrite load_if_unset_returns.
  destruct (after_load w) as [sd dk cr wa]. simpl in E. subst sd.
  unfold after_save. run_M.
  destruct (depth (recursive_ (patterns_ d)) <? maxDepth (recursive_ (patterns_ d)));
    [|reflexivity].
  simpl. destruct (write_result wa); reflexivity.
Qed.

Lemma update_dimension_spec (w : world) (d : document)
  (dimension key : string) (value : json) :
  starting_document w = Some d ->
  let w1 := after_load w in
  update_dimension dimension key value w =
    match dimensions d !! dimension with
    | None => (Returned false, w1)
    | Some m =>
        (Returned (write_ok (write_result (write_attempts w1))),
         after_save
           (set_dimensions (<[dimension := <[key := value]> m]> (dimensions d)) d)
           w1)
    end.
Proof.
  intros E. rewrite <- after_load_document in E. simpl.
  unfold update_dimension.
  unfold mbind at 1. unfold M_bind at 1. rewrite load_if_unset_returns.
  destruct (after_load w) as [sd dk cr wa]. simpl in E. subst sd.
  unfold after_save. run_M.
  destruct (dimensions d !! dimension); [|reflexivity].
  simpl. destruct (write_result wa); reflexivity.
Qed.

(** With no document to start from (nothing in memory, and the file
    unreadable or holding [null]) every operation raises [TypeError]. *)
Lemma run_without_document (op : operation) (w : world) :
  starting_document w = None ->
  exists w', run op w = (Raised TypeError, w') /\ state_data w' = None
    /\ disk w' = disk w /\ write_attempts w' = write_attempts w.
Proof.
  intros E. unfold starting_document in E.
  destruct w as [sd dk cr wa]. simpl in E.
  destruct sd as [d|]; [discriminate|].
  destruct dk as [| |[d|]]; try discriminate;
    destruct op; simpl; run_M; eexists; (split; [reflexivity|]); simpl; auto.
Qed.

(** *** Transitions *)

(** C1 (as amended): for every starting document and all strings
    [new_state] and [reason], one call of [update_state] appends exactly one
    entry to [stateHistory]; [currentState.state] is [new_state] afterwards,
    and the appended entry's [state] field is [new_state] too: the entry is
    stamped after the assignment.  The state before the call appears in the
    entry's event text only. *)
Theorem update_state_appends_entry_stamped_new_state
  (w : world) (d : document) (new_state reason : string) :
  starting_document w = Some d ->
  exists (b : bool) (w' : world) (d' : document) (e : history_entry),
    update_state new_state reason w = (Returned b, w') /\
    state_data w' = Some d' /\
    stateHistory d' = stateHistory d ++ [e] /\
    length (stateHistory d') = S (length (stateHistory d)) /\
    he_state e = new_state /\
    he_event e = transition_event (state (currentState d)) new_state reason /\
    state (currentState d') = new_state.
Proof.
  intros E. rewrite (update_state_spec w d new_state reason E).
  do 4 eexists. split; [reflexivity|]. split; [reflexivity|].
  simpl. rewrite length_app. simpl.
  repeat split; auto. lia.
Qed.

(** C9: a transition to the state the document is already in is carried out
    like any other: one entry is appended, its event text naming the same
    state on both sides of the arrow, and the document is written out (one
    more write of the state file, which holds the new document when the
    write goes through). *)
Theorem update_state_same_state_not_noop
  (w : world) (d : document) (reason : string) :
  starting_document w = Some d ->
  let s := state (currentState d) in
  let r := write_result (write_attempts w) in
  exists (w' : world) (d' : document) (e : history_entry),
    update_state s reason w = (Returned (write_ok r), w') /\
    state_data w' = Some d' /\
    stateHistory d' = stateHistory d ++ [e] /\
    he_state e = s /\
    he_event e =
      (let event := "State transition: " +:+ s +:+ " → " +:+ s in
       if nonempty reason then event +:+ " (" +:+ reason +:+ ")" else event) /\
    state (currentState d') = s /\
    write_attempts w' = S (write_attempts w) /\
    disk w' = written r (Some d') (disk w) /\
    (r = WriteOk -> disk w' = Holds (Some d')).
Proof.
  intros E s r.
  rewrite (update_state_spec w d s reason E).
  unfold r. rewrite <- (after_load_writes w).
  do 3 eexists. split; [reflexivity|]. split; [reflexivity|].
  simpl. rewrite after_load_disk.
  repeat split; auto.
  intros ->. reflexivity.
Qed.

(** *** Emergent patterns *)

(** C10: [detect_pattern] stores whatever confidence it is given.  For
    every floating-point value, inside [0, 1] or not, the call appends one
    entry to [patterns.emergent] whose [confidence] is that value, and
    returns what the save returns: [True] whenever the write goes
    through. *)
Theorem detect_pattern_any_confidence
  (w : world) (d : document) (pattern_type description : string)
  (confidence : float) :
  starting_document w = Some d ->
  let r := write_result (write_attempts w) in
  exists (w' : world) (d' : document) (e : emergent_entry),
    detect_pattern pattern_type description confidence w
      = (Returned (write_ok r), w') /\
    state_data w' = Some d' /\
    emergent (patterns_ d') = emergent (patterns_ d) ++ [e] /\
    pe_confidence e = confidence /\
    pe_type e = pattern_type /\
    pe_description e = description /\
    pe_recursiveDepth e = depth (recursive_ (patterns_ d)) /\
    (r = WriteOk ->
     detect_pattern pattern_type description confidence w = (Returned true, w')).
Proof.
  intros E r.
  rewrite (detect_pattern_spec w d pattern_type description confidence E).
  unfold r. rewrite <- (after_load_writes w).
  do 3 eexists. split; [reflexivity|]. split; [reflexivity|].
  simpl. repeat split; auto.
  intros ->. reflexivity.
Qed.

(** *** Append-only sequences *)

Lemma run_append_only (op : operation) (w : world) (d : document) :
  starting_document w = Some d ->
  exists d' : document,
    state_data (snd (run op w)) = Some d' /\
    stateHistory d `prefix_of` stateHistory d' /\
    emergent (patterns_ d) `prefix_of` emergent (patterns_ d').
Proof.
  intros E. pose proof (after_load_document w) as L. rewrite E in L.
  destruct op; simpl.
  - rewrite (add_state_event_spec w d _ _ _ E). eexists.
    split; [reflexivity|]. simpl. split; [apply prefix_app_r|]; reflexivity.
  - rewrite (update_state_spec w d _ _ E). eexists.
    split; [reflexivity|]. simpl. split; [apply prefix_app_r|]; reflexivity.
  - rewrite (detect_pattern_spec w d _ _ _ E). eexists.
    split; [reflexivity|]. simpl. split; [|apply prefix_app_r]; reflexivity.
  - rewrite (increase_recursive_depth_spec w d E).
    destruct (_ <? _); eexists; (split; [simpl; try reflexivity; exact L|]);
      split; reflexivity.
  - rewrite (update_dimension_spec w d _ _ _ E).
    destruct (_ !! _); eexists; (split; [simpl; try reflexivity; exact L|]);
      split; reflexivity.
Qed.

(** C6: [stateHistory] and [patterns.emergent] are append-only.  For every
    operation of the tracker and every starting document, the entries
    present before the call are a prefix of the entries after it: each
    sequence is the old one followed by at most one new entry, so nothing
    is removed and nothing changes place. *)
Theorem operations_append_only (op : operation) (w : world) (d : document) :
  starting_document w = Some d ->
  exists (d' : document) (hs : list history_entry) (ps : list emergent_entry),
    state_data (snd (run op w)) = Some d' /\
    stateHistory d' = stateHistory d ++ hs /\
    emergent (patterns_ d') = emergent (patterns_ d) ++ ps /\
    (length hs <= 1)%nat /\ (length ps <= 1)%nat /\
    stateHistory d `prefix_of` stateHistory d' /\
    emergent (patterns_ d) `prefix_of` emergent (patterns_ d').
Proof.
  intros E. pose proof (after_load_document w) as L. rewrite E in L.
  assert (G : forall (d' : document) (hs : list history_entry)
                (ps : list emergent_entry),
            state_data (snd (run op w)) = Some d' ->
            stateHistory d' = stateHistory d ++ hs ->
            emergent (patterns_ d') = emergent (patterns_ d) ++ ps ->
            (length hs <= 1)%nat -> (length ps <= 1)%nat ->
            exists d' hs ps,
              state_data (snd (run op w)) = Some d' /\
              stateHistory d' = stateHistory d ++ hs /\
              emergent (patterns_ d') = emergent (patterns_ d) ++ ps /\
              (length hs <= 1)%nat /\ (length ps <= 1)%nat /\
              stateHistory d `prefix_of` stateHistory d' /\
              emergent (patterns_ d) `prefix_of` emergent (patterns_ d')).
  { intros d' hs ps S H P Lh Lp. exists d', hs, ps.
    repeat split; auto; [rewrite H|rewrite P]; apply prefix_app_r; reflexivity. }
  destruct op; simpl in *.
  - rewrite (add_state_event_spec w d _ _ _ E) in *.
    eapply (G _ [_] []); simpl; auto using app_nil_r.
  - rewrite (update_state_spec w d _ _ E) in *.
    eapply (G _ [_] []); simpl; auto using app_nil_r.
  - rewrite (detect_pattern_spec w d _ _ _ E) in *.
    eapply (G _ [] [_]); simpl; auto using app_nil_r.
  - rewrite (increase_recursive_depth_spec w d E) in *.
    destruct (_ <? _); eapply (G _ [] []); simpl; eauto using app_nil_r.
  - rewrite (update_dimension_spec w d _ _ _ E) in *.
    destruct (_ !! _); eapply (G _ [] []); simpl; eauto using app_nil_r.
Qed.

Lemma starting_document_loaded (w : world) (d : document) :
  state_data w = Some d -> starting_document w = Some d.
Proof. unfold starting_document. intros ->. reflexivity. Qed.

Lemma run_all_append_only (ops : list operation) (w : world) (d : document) :
  starting_document w = Some d ->
  ops <> [] ->
  exists d' : document,
    state_data (run_all ops w) = Some d' /\
    stateHistory d `prefix_of` stateHistory d' /\
    emergent (patterns_ d) `prefix_of` emergent (patterns_ d').
Proof.
  revert w d. induction ops as [|op ops IH]; intros w d E N; [congruence|].
  destruct (run_append_only op w d E) as (d1 & E1 & H1 & P1).
  simpl. destruct ops as [|op' ops'].
  - simpl. eauto.
  - destruct (IH _ d1 (starting_document_loaded _ _ E1)) as (d2 & E2 & H2 & P2);
      [discriminate|].
    exists d2. split; [exact E2|]. split; etrans; eauto.
Qed.

(** *** The recursive depth and its ceiling *)

Lemma set_depth_same (d : document) : set_depth (depth_of d) d = d.
Proof. destruct d as [v h c [e [dp mx dt]] dims]. reflexivity. Qed.

Lemma set_depth_twice (a b : Z) (d : document) :
  set_depth a (set_depth b d) = set_depth a d.
Proof. reflexivity. Qed.

Lemma run_keeps_depth_bound (op : operation) (w : world) (d : document) :
  starting_document w = Some d ->
  depth_of d <= maxDepth_of d ->
  exists d' : document,
    state_data (snd (run op w)) = Some d' /\
    depth_of d' <= maxDepth_of d' /\
    maxDepth_of d' = maxDepth_of d.
Proof.
  intros E B. pose proof (after_load_document w) as L. rewrite E in L.
  destruct op; simpl.
  - rewrite (add_state_event_spec w d _ _ _ E). eexists.
    split; [reflexivity|]. simpl. auto.
  - rewrite (update_state_spec w d _ _ E). eexists.
    split; [reflexivity|]. simpl. auto.
  - rewrite (detect_pattern_spec w d _ _ _ E). eexists.
    split; [reflexivity|]. simpl. auto.
  - rewrite (increase_recursive_depth_spec w d E).
    destruct (Z.ltb_spec (depth_of d) (maxDepth_of d)); eexists;
      (split; [simpl; try reflexivity; exact L|]); simpl; split; auto; lia.
  - rewrite (update_dimension_spec w d _ _ _ E).
    destruct (_ !! _); eexists; (split; [simpl; try reflexivity; exact L|]);
      simpl; auto.
Qed.

Lemma increase_times_S (n : nat) (w : world) :
  increase_times (S n) w =
    match increase_recursive_depth w with
    | (Returned b, w1) =>
        match increase_times n w1 with
        | (Returned bs, w2) => (Returned (b :: bs), w2)
        | (Raised e, w2) => (Raised e, w2)
        end
    | (Raised e, w1) => (Raised e, w1)
    end.
Proof. reflexivity. Qed.

(** Below the ceiling, [n] calls in a row all go through to the save. *)
Lemma increase_times_climb (n : nat) :
  forall (w : world) (d : document),
    state_data w = Some d ->
    depth_of d + Z.of_nat n <= maxDepth_of d ->
    exists w' : world,
      increase_times n w =
        (Returned
           (map (fun i => write_ok (write_result (write_attempts w + i)%nat))
              (seq 0 n)), w') /\
      state_data w' = Some (set_depth (depth_of d + Z.of_nat n) d) /\
      write_attempts w' = (write_attempts w + n)%nat.
Proof.
  induction n as [|n IH]; intros w d E B.
  - exists w. simpl. rewrite Z.add_0_r, set_depth_same, Nat.add_0_r. auto.
  - pose proof (increase_recursive_depth_spec w d
                  (starting_document_loaded w d E)) as S1.
    simpl in S1. rewrite (after_load_loaded w d E) in S1.
    destruct (Z.ltb_spec (depth_of d) (maxDepth_of d)) as [_|]; [|lia].
    destruct (IH (after_save (set_depth (depth_of d + 1) d) w)
                (set_depth (depth_of d + 1) d)) as (w' & R & D & A).
    { reflexivity. }
    { simpl. lia. }
    exists w'. split; [|split].
    + rewrite increase_times_S, S1, R.
      f_equal. cbn [seq map]. rewrite Nat.add_0_r.
      f_equal. f_equal. rewrite <- seq_shift, map_map. simpl.
      apply map_ext. intros i. do 2 f_equal. lia.
    + rewrite D. simpl. f_equal. unfold set_depth. simpl.
      do 3 f_equal. lia.
    + rewrite A. simpl. lia.
Qed.

Lemma increase_times_last (n : nat) :
  forall (w w' w'' : world) (bs : list bool) (b : bool),
    increase_times n w = (Returned bs, w') ->
    increase_recursive_depth w' = (Returned b, w'') ->
    increase_times (S n) w = (Returned (bs ++ [b]), w'').
Proof.
  induction n as [|n IH]; intros w w' w'' bs b R L.
  - simpl in R. inversion R; subst. rewrite increase_times_S, L. reflexivity.
  - rewrite increase_times_S in R.
    destruct (increase_recursive_depth w) as [[b0|e0] w0] eqn:E0; [|discriminate].
    destruct (increase_times n w0) as [[bs0|e1] w1] eqn:E1; [|discriminate].
    inversion R; subst.
    pose proof (IH _ _ _ _ _ E1 L) as R'.
    rewrite increase_times_S, E0, R'. reflexivity.
Qed.

Lemma increase_recursive_depth_after_load (w : world) (d : document) :
  starting_document w = Some d ->
  increase_recursive_depth w = increase_recursive_depth (after_load w).
Proof.
  intros E. pose proof (after_load_document w) as L. rewrite E in L.
  rewrite (increase_recursive_depth_spec w d E).
  rewrite (increase_recursive_depth_spec (after_load w) d
             (starting_document_loaded _ _ L)).
  rewrite (after_load_loaded (after_load w) d L). reflexivity.
Qed.

(** C3: [patterns.recursive.depth] never exceeds [patterns.recursive.maxDepth].
    Every operation keeps a depth that is within the ceiling within it.
    From depth 0, [maxDepth + 1] calls of [increase_recursive_depth] in a
    row: each of the first [maxDepth] raises the depth by one and returns
    what its save returns ([True] when the writes go through); the last one
    returns [False] and leaves the world as it was (document, file and
    number of writes), the depth being [maxDepth]. *)
Theorem recursive_depth_never_exceeds_maxDepth (w : world) (d : document) :
  starting_document w = Some d ->
  depth_of d <= maxDepth_of d ->
  (forall op : operation,
     exists d' : document,
       state_data (snd (run op w)) = Some d' /\
       depth_of d' <= maxDepth_of d' /\
       maxDepth_of d' = maxDepth_of d) /\
  (depth_of d = 0 ->
   let n := Z.to_nat (maxDepth_of d) in
   let saves :=
     map (fun i => write_ok (write_result (write_attempts w + i)%nat)) (seq 0 n) in
   exists w_n : world,
     increase_times n (after_load w) = (Returned saves, w_n) /\
     state_data w_n = Some (set_depth (maxDepth_of d) d) /\
     increase_recursive_depth w_n = (Returned false, w_n) /\
     increase_times (S n) w = (Returned (saves ++ [false]), w_n) /\
     ((forall i : nat, (i < n)%nat ->
         write_result (write_attempts w + i)%nat = WriteOk) ->
      saves = replicate n true)).
Proof.
  intros E B. split.
  { intros op. exact (run_keeps_depth_bound op w d E B). }
  intros Z0 n saves.
  pose proof (after_load_document w) as L. rewrite E in L.
  destruct (increase_times_climb n (after_load w) d L) as (w_n & R & D & A).
  { subst n. lia. }
  rewrite after_load_writes in R.
  assert (Dn : state_data w_n = Some (set_depth (maxDepth_of d) d)).
  { rewrite D. do 2 f_equal. subst n. lia. }
  assert (F : increase_recursive_depth w_n = (Returned false, w_n)).
  { rewrite (increase_recursive_depth_spec w_n _
               (starting_document_loaded _ _ Dn)).
    rewrite (after_load_loaded w_n _ Dn). simpl.
    rewrite Z.ltb_irrefl. reflexivity. }
  exists w_n. split; [exact R|]. split; [exact Dn|]. split; [exact F|]. split.
  - pose proof (increase_times_last n _ _ _ _ _ R F) as R'.
    rewrite increase_times_S in R' |- *.
    rewrite (increase_recursive_depth_after_load w d E). exact R'.
  - intros OK. subst saves. clear - OK.
    assert (G : forall m k, (forall i, (i < m)%nat ->
                  write_result (k + i)%nat = WriteOk) ->
                map (fun i => write_ok (write_result (k + i)%nat)) (seq 0 m)
                = replicate m true).
    { clear. induction m as [|m IH]; intros k H; [reflexivity|].
      cbn [seq map replicate]. rewrite (H 0%nat) by lia. simpl. f_equal.
      rewrite <- seq_shift, map_map. rewrite <- (IH (S k)).
      - apply map_ext. intros i. do 2 f_equal. lia.
      - intros i Hi. replace (S k + i)%nat with (k + S i)%nat by lia.
        apply H. lia. }
    apply G. exact OK.
Qed.

(** *** Dimensions *)

(** C4 (as amended): [update_dimension] checks the name against the keys
    of the document's own ["dimensions"] mapping, not against a list of
    names.  With a name that is not a key it returns [False] and leaves the
    document as it is, with no write of the state file; with a name that
    is a key it stores [value] under [key] in that dimension's mapping, the
    rest of the mapping and the other dimensions kept, and writes the
    document out.  On a document whose keys are the five predeclared names
    the names that are refused are the names other than the five. *)
Theorem update_dimension_by_document_keys
  (w : world) (d : document) (dimension key : string) (value : json) :
  starting_document w = Some d ->
  (dimensions d !! dimension = None ->
   exists w' : world,
     update_dimension dimension key value w = (Returned false, w') /\
     state_data w' = Some d /\
     disk w' = disk w /\
     write_attempts w' = write_attempts w) /\
  (forall m : gmap string json,
     dimensions d !! dimension = Some m ->
     let r := write_result (write_attempts w) in
     exists (w' : world) (d' : document),
       update_dimension dimension key value w = (Returned (write_ok r), w') /\
       state_data w' = Some d' /\
       d' = set_dimensions (<[dimension := <[key := value]> m]> (dimensions d)) d /\
       dimensions d' !! dimension = Some (<[key := value]> m) /\
       (<[key := value]> m) !! key = Some value /\
       (forall k : string, k <> key -> (<[key := value]> m) !! k = m !! k) /\
       (forall n : string, n <> dimension ->
          dimensions d' !! n = dimensions d !! n) /\
       write_attempts w' = S (write_attempts w) /\
       disk w' = written r (Some d') (disk w)) /\
  (predeclared_dimensions d ->
   (dimension ∉ predeclared -> dimensions d !! dimension = None) /\
   (dimension ∈ predeclared -> is_Some (dimensions d !! dimension))).
Proof.
  intros E.
  pose proof (after_load_document w) as L. rewrite E in L.
  rewrite (update_dimension_spec w d dimension key value E).
  split; [|split].
  - intros ->. exists (after_load w).
    split; [reflexivity|]. split; [exact L|].
    split; [apply after_load_disk|apply after_load_writes].
  - intros m Hm r. rewrite Hm. unfold r. rewrite <- (after_load_writes w).
    do 2 eexists. split; [reflexivity|]. split; [reflexivity|].
    split; [reflexivity|]. simpl.
    split; [apply lookup_insert_eq|].
    split; [apply lookup_insert_eq|].
    split; [intros k Hk; apply lookup_insert_ne; congruence|].
    split; [intros n Hn; apply lookup_insert_ne; congruence|].
    split; [reflexivity|].
    rewrite after_load_disk. reflexivity.
  - intros P. unfold predeclared_dimensions in P. split.
    + intros N. apply not_elem_of_dom. rewrite P, elem_of_list_to_set. exact N.
    + intros I. apply elem_of_dom. rewrite P, elem_of_list_to_set. exact I.
Qed.

(** Every document the tracker itself makes is of that kind. *)
Lemma initial_document_predeclared (now : string) :
  predeclared_dimensions (initial_document now).
Proof.
  unfold predeclared_dimensions, initial_document, initial_dimensions,
    predeclared. simpl.
  rewrite !dom_insert_L, dom_empty_L. set_solver.
Qed.

Lemma run_keeps_predeclared (op : operation) (w : world) (d : document) :
  starting_document w = Some d ->
  predeclared_dimensions d ->
  exists d' : document,
    state_data (snd (run op w)) = Some d' /\ predeclared_dimensions d'.
Proof.
  intros E P. pose proof (after_load_document w) as L. rewrite E in L.
  destruct op; simpl.
  - rewrite (add_state_event_spec w d _ _ _ E). eexists.
    split; [reflexivity|]. exact P.
  - rewrite (update_state_spec w d _ _ E). eexists.
    split; [reflexivity|]. exact P.
  - rewrite (detect_pattern_spec w d _ _ _ E). eexists.
    split; [reflexivity|]. exact P.
  - rewrite (increase_recursive_depth_spec w d E).
    destruct (_ <? _); eexists; (split; [simpl; try reflexivity; exact L|]);
      exact P.
  - rewrite (update_dimension_spec w d _ _ _ E).
    destruct (dimensions d !! dimension) as [m|] eqn:Hm; eexists;
      (split; [simpl; try reflexivity; exact L|]); [|exact P].
    unfold predeclared_dimensions in *. unfold set_dimensions.
    cbn [dimensions]. rewrite dom_insert_L, P.
    assert (dimension ∈ dom (dimensions d)) as I by (apply elem_of_dom; eauto).
    rewrite P in I. apply subseteq_union_1_L, singleton_subseteq_l. exact I.
Qed.

(** *** Loading and saving *)

(** C5: with no state file on disk, [load_state], then [save_state] (the
    write going through), then [load_state] again: the second load gives
    the document the first one gave.  That document is the default one:
    state ["initialized"], no history, no emergent patterns, and the five
    dimensions, each an empty mapping. *)
Theorem load_save_load_default
  (sd : option document) (reads writes : nat) :
  write_result writes = WriteOk ->
  let w0 := World sd Missing reads writes in
  exists (w1 w2 w3 : world) (d : document),
    load_state w0 = (Returned true, w1) /\
    state_data w1 = Some d /\
    save_state w1 = (Returned true, w2) /\
    load_state w2 = (Returned true, w3) /\
    state_data w3 = Some d /\
    disk w3 = Holds (Some d) /\
    d = initial_document (utcnow reads) /\
    state (currentState d) = "initialized" /\
    stateHistory d = [] /\
    emergent (patterns_ d) = [] /\
    (forall n : string, n ∈ predeclared -> dimensions d !! n = Some ∅) /\
    (forall n : string, n ∉ predeclared -> dimensions d !! n = None).
Proof.
  intros OK w0. subst w0.
  set (d := initial_document (utcnow reads)).
  exists (World (Some d) Missing (S reads) writes),
    (World (Some d) (Holds (Some d)) (S reads) (S writes)),
    (World (Some d) (Holds (Some d)) (S reads) (S writes)), d.
  split; [reflexivity|]. split; [reflexivity|].
  split; [run_M; rewrite OK; reflexivity|].
  do 7 (split; [reflexivity|]).
  subst d. cbn [initial_document dimensions].
  unfold initial_dimensions, predeclared. split.
  - intros n Hn. rewrite !elem_of_cons in Hn. rewrite elem_of_nil in Hn.
    destruct Hn as [->|[->|[->|[->|[->|[]]]]]]; reflexivity.
  - intros n Hn. rewrite !not_elem_of_cons in Hn.
    destruct Hn as (?&?&?&?&?&_).
    rewrite !lookup_insert_ne by congruence. apply lookup_empty.
Qed.

(** C7: [load_state] on a state file that is present but cannot be read
    returns [False] and changes nothing: neither the file nor the document
    in memory.  It never writes the file.  The default document is made
    only when the file is missing; a readable file gives its own content.
    An operation called on a tracker that has nothing in memory and such a
    file behind it raises, and the file stays as it is. *)
Theorem load_state_unreadable_fails
  (sd : option document) (reads writes : nat) :
  load_state (World sd Unreadable reads writes)
    = (Returned false, World sd Unreadable reads writes) /\
  load_state (World sd Missing reads writes)
    = (Returned true,
       World (Some (initial_document (utcnow reads))) Missing (S reads) writes) /\
  (forall content : option document,
     load_state (World sd (Holds content) reads writes)
       = (Returned true, World content (Holds content) reads writes)) /\
  (forall w : world, disk (snd (load_state w)) = disk w) /\
  (forall op : operation,
     exists w' : world,
       run op (World None Unreadable reads writes) = (Raised TypeError, w') /\
       state_data w' = None /\
       disk w' = Unreadable /\
       write_attempts w' = writes).
Proof.
  split; [reflexivity|]. split; [reflexivity|]. split; [reflexivity|].
  split; [intros [sd' [| |c] cr wa]; reflexivity|].
  intros op.
  destruct (run_without_document op (World None Unreadable reads writes))
    as (w' & R & S & D & A); [reflexivity|].
  exists w'. auto.
Qed.

(** *** More of the tracker: what an operation leaves behind *)

Lemma run_effect (op : operation) (w : world) (d : document) :
  starting_document w = Some d ->
  state_data (snd (run op w))
  = Some (effect (utcnow (clock_reads (after_load w))) op d).
Proof.
  intros E. pose proof (after_load_document w) as L. rewrite E in L.
  destruct op; simpl.
  - rewrite (add_state_event_spec w d _ _ _ E). reflexivity.
  - rewrite (update_state_spec w d _ _ E). reflexivity.
  - rewrite (detect_pattern_spec w d _ _ _ E). reflexivity.
  - rewrite (increase_recursive_depth_spec w d E).
    destruct (_ <? _); simpl; [reflexivity|exact L].
  - rewrite (update_dimension_spec w d _ _ _ E).
    destruct (_ !! _); simpl; [reflexivity|exact L].
Qed.

Lemma run_returns (op : operation) (w : world) (d : document) :
  starting_document w = Some d ->
  exists b : bool, fst (run op w) = Returned b.
Proof.
  intros E. destruct op; simpl.
  - rewrite (add_state_event_spec w d _ _ _ E). eauto.
  - rewrite (update_state_spec w d _ _ E). eauto.
  - rewrite (detect_pattern_spec w d _ _ _ E). eauto.
  - rewrite (increase_recursive_depth_spec w d E). destruct (_ <? _); eauto.
  - rewrite (update_dimension_spec w d _ _ _ E). destruct (_ !! _); eauto.
Qed.

(** A property of documents that every operation keeps holds along every
    sequence of operations. *)
Lemma run_all_keeps (P : document -> Prop) :
  (forall (now : string) (op : operation) (d : document),
     P d -> P (effect now op d)) ->
  forall (ops : list operation) (w : world) (d : document),
    starting_document w = Some d -> P d ->
    exists d' : document,
      starting_document (run_all ops w) = Some d' /\ P d'.
Proof.
  intros K. induction ops as [|op ops IH]; intros w d E H; simpl; [eauto|].
  apply (IH _ (effect (utcnow (clock_reads (after_load w))) op d)).
  - apply starting_document_loaded, run_effect, E.
  - apply K, H.
Qed.

(** Every operation leaves the parts of the document it is not about as
    they were: no operation changes [version], the mode flag, the number
    of commitments, the ethical status, the evolutionary stage, [maxDepth]
    or [detectedPatterns]; only [update_state] changes the state, only
    [increase_recursive_depth] the depth, only [update_dimension] the
    dimensions. *)
Theorem operations_keep_the_rest (op : operation) (w : world) (d : document) :
  starting_document w = Some d ->
  exists d' : document,
    state_data (snd (run op w)) = Some d' /\
    version d' = version d /\
    genaMode (currentState d') = genaMode (currentState d) /\
    activeCommitments (currentState d') = activeCommitments (currentState d) /\
    ethicalStatus (currentState d') = ethicalStatus (currentState d) /\
    evolutionaryStage (currentState d') = evolutionaryStage (currentState d) /\
    maxDepth_of d' = maxDepth_of d /\
    detectedPatterns (recursive_ (patterns_ d'))
      = detectedPatterns (recursive_ (patterns_ d)) /\
    match op with
    | RecordEvent _ _ _ =>
        state (currentState d') = state (currentState d) /\
        patterns_ d' = patterns_ d /\ dimensions d' = dimensions d
    | Transition _ _ =>
        patterns_ d' = patterns_ d /\ dimensions d' = dimensions d
    | DetectPattern _ _ _ =>
        currentState d' = currentState d /\ stateHistory d' = stateHistory d /\
        depth_of d' = depth_of d /\ dimensions d' = dimensions d
    | IncreaseRecursiveDepth =>
        currentState d' = currentState d /\ stateHistory d' = stateHistory d /\
        emergent (patterns_ d') = emergent (patterns_ d) /\
        dimensions d' = dimensions d
    | SetDimension _ _ _ =>
        currentState d' = currentState d /\ stateHistory d' = stateHistory d /\
        patterns_ d' = patterns_ d
    end.
Proof.
  intros E. rewrite (run_effect op w d E). eexists. split; [reflexivity|].
  destruct op; simpl.
  - repeat split.
  - repeat split.
  - repeat split.
  - destruct (_ <? _); simpl; repeat split.
  - destruct (_ !! _); simpl; repeat split.
Qed.

Lemma effect_keeps_history_in_step (now : string) (op : operation) (d : document) :
  history_in_step d -> history_in_step (effect now op d).
Proof.
  unfold history_in_step. intros H. destruct op; simpl.
  - rewrite last_snoc. simpl. auto.
  - rewrite last_snoc. simpl. auto.
  - exact H.
  - destruct (_ <? _); exact H.
  - destruct (_ !! _); exact H.
Qed.

(** The newest history entry always agrees with [currentState]: along any
    sequence of operations, from a document where the last entry (if any)
    carries the current state and the time of the last evaluation, it
    still does afterwards. *)
Theorem history_stays_in_step
  (ops : list operation) (w : world) (d : document) :
  starting_document w = Some d ->
  history_in_step d ->
  exists d' : document,
    starting_document (run_all ops w) = Some d' /\ history_in_step d'.
Proof.
  intros E H.
  exact (run_all_keeps history_in_step effect_keeps_history_in_step ops w d E H).
Qed.

(** What the returned value says about the write.  An operation makes at
    most one write of the state file.  It returns [True] only if it made
    one and that write completed.  If it made none (the depth is at the
    ceiling, or the name is not a dimension) it returns [False], and the
    document and the file are as they were. *)
Theorem returned_value_and_the_write
  (op : operation) (w w' : world) (b : bool) :
  run op w = (Returned b, w') ->
  (b = true ->
   write_result (write_attempts w) = WriteOk /\
   write_attempts w' = S (write_attempts w)) /\
  (write_attempts w' = write_attempts w \/
   write_attempts w' = S (write_attempts w)) /\
  (write_attempts w' = write_attempts w ->
   b = false /\ state_data w' = starting_document w /\ disk w' = disk w).
Proof.
  intros R.
  destruct (starting_document w) as [d|] eqn:E.
  2:{ destruct (run_without_document op w E) as (w1 & R1 & _).
      rewrite R in R1. discriminate R1. }
  pose proof (after_load_document w) as L. rewrite E in L.
  pose proof (after_load_writes w) as A.
  pose proof (after_load_disk w) as D.
  assert (G : forall d1 w1,
            write_attempts w1 = write_attempts w ->
            (Returned (write_ok (write_result (write_attempts w1))),
             after_save d1 w1) = (Returned b, w') ->
            (b = true ->
             write_result (write_attempts w) = WriteOk /\
             write_attempts w' = S (write_attempts w)) /\
            (write_attempts w' = write_attempts w \/
             write_attempts w' = S (write_attempts w)) /\
            (write_attempts w' = write_attempts w ->
             b = false /\ state_data w' = Some d /\ disk w' = disk w)).
  { intros d1 w1 A1 [= Hb <-]. unfold after_save. simpl. rewrite A1 in *.
    split; [|split].
    - intros ->. split; [|reflexivity].
      destruct (write_result (write_attempts w)); [reflexivity|discriminate..].
    - right. reflexivity.
    - intros K. exfalso. lia. }
  assert (N : (Returned false, after_load w) = (Returned b, w') ->
            (b = true ->
             write_result (write_attempts w) = WriteOk /\
             write_attempts w' = S (write_attempts w)) /\
            (write_attempts w' = write_attempts w \/
             write_attempts w' = S (write_attempts w)) /\
            (write_attempts w' = write_attempts w ->
             b = false /\ state_data w' = Some d /\ disk w' = disk w)).
  { intros [= <- <-]. split; [discriminate|]. split; [left; exact A|].
    intros _. auto. }
  destruct op; simpl in R.
  - rewrite (add_state_event_spec w d _ _ _ E) in R.
    exact (G _ (tick (after_load w)) A R).
  - rewrite (update_state_spec w d _ _ E) in R.
    exact (G _ (tick (after_load w)) A R).
  - rewrite (detect_pattern_spec w d _ _ _ E) in R.
    exact (G _ (tick (after_load w)) A R).
  - rewrite (increase_recursive_depth_spec w d E) in R.
    destruct (_ <? _); [exact (G _ (after_load w) A R)|exact (N R)].
  - rewrite (update_dimension_spec w d _ _ _ E) in R.
    destruct (_ !! _); [exact (G _ (after_load w) A R)|exact (N R)].
Qed.

(** Two events recorded one after the other give two entries, in that
    order, even when they are the same event: nothing is merged.  Both
    carry the current state; their timestamps are two successive readings
    of the clock, and [lastEvaluation] is the second. *)
Theorem add_state_event_twice_two_entries
  (w : world) (d : document) (event1 notes1 event2 notes2 : string)
  (ok1 ok2 : bool) :
  starting_document w = Some d ->
  let k := clock_reads (after_load w) in
  let e1 := HistoryEntry (utcnow k +:+ "Z") (state (currentState d))
              event1 ok1 notes1 in
  let e2 := HistoryEntry (utcnow (S k) +:+ "Z") (state (currentState d))
              event2 ok2 notes2 in
  exists d' : document,
    state_data
      (run_all [RecordEvent event1 notes1 ok1; RecordEvent event2 notes2 ok2] w)
    = Some d' /\
    stateHistory d' = stateHistory d ++ [e1; e2] /\
    lastEvaluation (currentState d') = utcnow (S k) +:+ "Z" /\
    state (currentState d') = state (currentState d).
Proof.
  intros E k e1 e2. simpl.
  rewrite (add_state_event_spec w d _ _ _ E). simpl.
  set (w1 := after_save _ _).
  assert (E1 : starting_document w1 = Some
            (with_event d (event_entry_of d (utcnow k) event1 notes1 ok1)))
    by reflexivity.
  rewrite (add_state_event_spec w1 _ _ _ _ E1).
  rewrite (after_load_loaded w1 _ eq_refl).
  eexists. split; [reflexivity|]. simpl.
  rewrite <- app_assoc. repeat split.
Qed.

(** Reading back after a transition: [get_current_state] returns a
    [currentState] whose state is the new one and whose [lastEvaluation] is
    the time of the transition, the other fields as before; it changes
    nothing. *)
Theorem update_state_then_get_current_state
  (w : world) (d : document) (new_state reason : string) :
  starting_document w = Some d ->
  let w1 := snd (update_state new_state reason w) in
  exists c : current_state,
    get_current_state w1 = (Returned c, w1) /\
    state c = new_state /\
    lastEvaluation c = utcnow (clock_reads (after_load w)) +:+ "Z" /\
    genaMode c = genaMode (currentState d) /\
    activeCommitments c = activeCommitments (currentState d) /\
    ethicalStatus c = ethicalStatus (currentState d) /\
    evolutionaryStage c = evolutionaryStage (currentState d).
Proof.
  intros E. simpl. rewrite (update_state_spec w d _ _ E). simpl.
  eexists. split; [reflexivity|]. simpl. repeat split.
Qed.

(** *** Dimensions as maps *)

Lemma effect_set_dimension_twice
  (now1 now2 : string) (dimension key : string) (v1 v2 : json) (d : document) :
  effect now2 (SetDimension dimension key v2)
    (effect now1 (SetDimension dimension key v1) d)
  = effect now2 (SetDimension dimension key v2) d.
Proof.
  simpl. destruct (dimensions d !! dimension) as [m|] eqn:Hm; simpl.
  - rewrite lookup_insert_eq. unfold set_dimensions. simpl.
    rewrite !insert_insert_eq. reflexivity.
  - rewrite Hm. reflexivity.
Qed.

Lemma effect_set_dimension_commute
  (now1 now2 : string) (dim1 key1 dim2 key2 : string) (v1 v2 : json)
  (d : document) :
  dim1 <> dim2 \/ key1 <> key2 ->
  effect now2 (SetDimension dim2 key2 v2)
    (effect now1 (SetDimension dim1 key1 v1) d)
  = effect now1 (SetDimension dim1 key1 v1)
      (effect now2 (SetDimension dim2 key2 v2) d).
Proof.
  intros N. simpl.
  destruct (decide (dim1 = dim2)) as [<-|Hd].
  - destruct N as [N|N]; [congruence|].
    destruct (dimensions d !! dim1) as [m|] eqn:Hm; simpl.
    + rewrite !lookup_insert_eq. unfold set_dimensions. simpl.
      rewrite !insert_insert_eq. do 2 f_equal.
      apply insert_insert_ne. congruence.
    + rewrite Hm. reflexivity.
  - destruct (dimensions d !! dim1) as [m1|] eqn:H1;
      destruct (dimensions d !! dim2) as [m2|] eqn:H2; simpl;
      rewrite ?lookup_insert_ne by congruence; rewrite ?H1, ?H2; simpl;
      try reflexivity.
    unfold set_dimensions. simpl. f_equal.
    apply insert_insert_ne. congruence.
Qed.

Lemma run_two_effect (op1 op2 : operation) (w : world) (d : document) :
  starting_document w = Some d ->
  exists now1 now2 : string,
    state_data (run_all [op1; op2] w)
    = Some (effect now2 op2 (effect now1 op1 d)).
Proof.
  intros E. simpl. do 2 eexists.
  rewrite (run_effect op2 _ _
             (starting_document_loaded _ _ (run_effect op1 w d E))).
  reflexivity.
Qed.

(** Two writes to the same key of a dimension: the document in memory ends
    up as after the second write alone. *)
Theorem update_dimension_last_write_wins
  (w : world) (d : document) (dimension key : string) (v1 v2 : json) :
  starting_document w = Some d ->
  state_data (run_all [SetDimension dimension key v1;
                       SetDimension dimension key v2] w)
  = state_data (run_all [SetDimension dimension key v2] w).
Proof.
  intros E.
  destruct (run_two_effect (SetDimension dimension key v1)
              (SetDimension dimension key v2) w d E) as (n1 & n2 & ->).
  rewrite effect_set_dimension_twice.
  change (run_all [SetDimension dimension key v2] w)
    with (snd (run (SetDimension dimension key v2) w)).
  rewrite (run_effect _ w d E). reflexivity.
Qed.

(** Two writes to different keys, or to different dimensions, can be made
    in either order: the document in memory ends up the same. *)
Theorem update_dimension_writes_commute
  (w : world) (d : document) (dim1 key1 dim2 key2 : string) (v1 v2 : json) :
  starting_document w = Some d ->
  dim1 <> dim2 \/ key1 <> key2 ->
  state_data (run_all [SetDimension dim1 key1 v1; SetDimension dim2 key2 v2] w)
  = state_data (run_all [SetDimension dim2 key2 v2; SetDimension dim1 key1 v1] w).
Proof.
  intros E N.
  destruct (run_two_effect (SetDimension dim1 key1 v1)
              (SetDimension dim2 key2 v2) w d E) as (a1 & a2 & ->).
  destruct (run_two_effect (SetDimension dim2 key2 v2)
              (SetDimension dim1 key1 v1) w d E) as (b1 & b2 & ->).
  f_equal.
  rewrite (effect_set_dimension_commute a1 a2 _ _ _ _ _ _ d N).
  reflexivity.
Qed.

(** *** The depth, for any number of calls *)

Lemma increase_times_at_ceiling (n : nat) (w : world) (d : document) :
  state_data w = Some d ->
  maxDepth_of d <= depth_of d ->
  increase_times n w = (Returned (replicate n false), w).
Proof.
  intros E B. induction n as [|n IH]; [reflexivity|].
  rewrite increase_times_S.
  rewrite (increase_recursive_depth_spec w d (starting_document_loaded w d E)).
  rewrite (after_load_loaded w d E).
  destruct (Z.ltb_spec (depth_of d) (maxDepth_of d)); [lia|].
  rewrite IH. reflexivity.
Qed.

Lemma increase_times_app (a : nat) :
  forall (b : nat) (w w1 w2 : world) (bs cs : list bool),
    increase_times a w = (Returned bs, w1) ->
    increase_times b w1 = (Returned cs, w2) ->
    increase_times (a + b) w = (Returned (bs ++ cs), w2).
Proof.
  induction a as [|a IH]; intros b w w1 w2 bs cs A B.
  - simpl in A. inversion A; subst. exact B.
  - rewrite increase_times_S in A.
    destruct (increase_recursive_depth w) as [[b0|e0] w0] eqn:E0; [|discriminate].
    destruct (increase_times a w0) as [[bs0|e1] w3] eqn:E1; [|discriminate].
    inversion A; subst.
    change (S a + b)%nat with (S (a + b)).
    rewrite increase_times_S, E0, (IH _ _ _ _ _ _ E1 B). reflexivity.
Qed.

(** From depth 0, after [n] calls of [increase_recursive_depth] the depth is
    the smaller of [n] and [maxDepth], for every [n]; a pattern detected
    then is stamped with that depth. *)
Theorem depth_after_calls_and_its_stamp
  (w : world) (d : document) (n : nat)
  (pattern_type description : string) (confidence : float) :
  starting_document w = Some d ->
  depth_of d = 0 ->
  0 <= maxDepth_of d ->
  exists (bs : list bool) (w_n w' : world) (d' : document) (e : emergent_entry)
         (b : bool),
    increase_times n (after_load w) = (Returned bs, w_n) /\
    length bs = n /\
    state_data w_n = Some (set_depth (Z.min (Z.of_nat n) (maxDepth_of d)) d) /\
    detect_pattern pattern_type description confidence w_n = (Returned b, w') /\
    state_data w' = Some d' /\
    emergent (patterns_ d') = emergent (patterns_ d) ++ [e] /\
    pe_recursiveDepth e = Z.min (Z.of_nat n) (maxDepth_of d).
Proof.
  intros E Z0 M.
  pose proof (after_load_document w) as L. rewrite E in L.
  assert (C : exists bs w_n,
            increase_times n (after_load w) = (Returned bs, w_n) /\
            length bs = n /\
            state_data w_n
            = Some (set_depth (Z.min (Z.of_nat n) (maxDepth_of d)) d)).
  { destruct (Z.le_gt_cases (Z.of_nat n) (maxDepth_of d)) as [Le|Gt].
    - destruct (increase_times_climb n (after_load w) d L) as (w_n & R & D & _);
        [lia|].
      do 2 eexists. split; [exact R|]. split.
      + rewrite length_map, length_seq. reflexivity.
      + rewrite D. do 2 f_equal. lia.
    - set (m := Z.to_nat (maxDepth_of d)).
      destruct (increase_times_climb m (after_load w) d L) as (w_m & R & D & _);
        [subst m; lia|].
      assert (Dm : state_data w_m = Some (set_depth (maxDepth_of d) d)).
      { rewrite D. do 2 f_equal. subst m. lia. }
      pose proof (increase_times_at_ceiling (n - m) w_m _ Dm) as R2.
      simpl in R2. specialize (R2 (Z.le_refl _)).
      pose proof (increase_times_app m (n - m) _ _ _ _ _ R R2) as R3.
      replace (m + (n - m))%nat with n in R3 by (subst m; lia).
      do 2 eexists. split; [exact R3|]. split.
      + rewrite length_app, length_map, length_seq, length_replicate.
        subst m. lia.
      + rewrite Dm. do 2 f_equal. lia. }
  destruct C as (bs & w_n & R & Lb & D).
  pose proof (detect_pattern_spec w_n _ pattern_type description confidence
                (starting_document_loaded _ _ D)) as S.
  simpl in S. rewrite (after_load_loaded w_n _ D) in S.
  do 6 eexists. split; [exact R|]. split; [exact Lb|]. split; [exact D|].
  split; [exact S|]. split; [reflexivity|]. simpl. split; reflexivity.
Qed.

(** *** Saving with nothing loaded, and the entry point *)

(** [save_state] on a tracker that has loaded nothing writes [null] and
    returns [True].  A tracker that finds that file loads it and returns
    [True] as well, with nothing in memory; every operation, and each of
    the two readers, then raises [TypeError], and the file stays. *)
Theorem save_before_load_writes_null (f : file) (reads writes : nat) :
  write_result writes = WriteOk ->
  save_state (World None f reads writes)
  = (Returned true, World None (Holds None) reads (S writes)) /\
  forall reads' writes' : nat,
    let w := World None (Holds None) reads' writes' in
    load_state w = (Returned true, w) /\
    (forall op : operation,
       exists w' : world,
         run op w = (Raised TypeError, w') /\ disk w' = Holds None) /\
    get_current_state w = (Raised TypeError, w) /\
    get_state_summary w = (Raised TypeError, w) /\
    main w = (Raised TypeError, w).
Proof.
  intros OK. split.
  - run_M. rewrite OK. reflexivity.
  - intros reads' writes' w. split; [reflexivity|]. split.
    + intros op. destruct (run_without_document op w) as (w' & R & _ & D & _);
        [reflexivity|].
      exists w'. auto.
    + repeat split; reflexivity.
Qed.

(** [main] only reads.  Whatever the state file is, it is the same
    afterwards and nothing was written.  With no file, [main] prints the
    summary of the default document and ends with status 0, and there is
    still no file; with a readable document it prints that document's
    summary, status 0; with an unreadable file it prints that loading
    failed and ends with status 1. *)
Theorem main_reads_only (sd : option document) (f : file) (reads writes : nat) :
  let w := World sd f reads writes in
  disk (snd (main w)) = f /\
  write_attempts (snd (main w)) = writes /\
  match f with
  | Missing =>
      main w = (Returned (summary_of (initial_document (utcnow reads)), 0),
                World (Some (initial_document (utcnow reads))) Missing
                  (S reads) writes)
  | Unreadable =>
      main w = (Returned ("Failed to load state", 1),
                World None Unreadable reads writes)
  | Holds (Some d) =>
      main w = (Returned (summary_of d, 0), World (Some d) f reads writes)
  | Holds None => fst (main w) = Raised TypeError
  end.
Proof.
  destruct f as [| |[d|]]; repeat split; reflexivity.
Qed.

End Tracker.

(** *** A first run, on concrete inputs *)

(** C1, counterexample: the first transition of a fresh tracker, from
    ["initialized"] to ["active"], appends an entry whose [state] is
    ["active"], not ["initialized"]. *)
Lemma update_state_entry_not_stamped_previous_state :
  ~ entry_stamped_previous_state second_of writes_go_through
      fresh_tracker "active" "".
Proof.
  intros H.
  destruct (H first_document eq_refl) as (b & w' & d' & e & R & S & Hh & He & _).
  vm_compute in R. inversion R; subst b w'; clear R.
  simpl in S. inversion S; subst d'; clear S.
  simpl in Hh. inversion Hh; subst e. simpl in He. discriminate He.
Qed.

Lemma update_state_appends_entry_stamped_new_state_witness :
  starting_document second_of fresh_tracker = Some first_document /\
  exists (b : bool) (w' : world) (d' : document) (e : history_entry),
    update_state second_of writes_go_through "active" "first run" fresh_tracker
      = (Returned b, w') /\
    state_data w' = Some d' /\
    stateHistory d' = stateHistory first_document ++ [e] /\
    length (stateHistory d') = S (length (stateHistory first_document)) /\
    he_state e = "active" /\
    he_event e = "State transition: initialized → active (first run)" /\
    state (currentState d') = "active".
Proof.
  split; [reflexivity|].
  exact (update_state_appends_entry_stamped_new_state second_of
           writes_go_through fresh_tracker first_document "active" "first run"
           eq_refl).
Defined.

Lemma update_state_same_state_not_noop_witness :
  starting_document second_of fresh_tracker = Some first_document /\
  exists (w' : world) (d' : document) (e : history_entry),
    update_state second_of writes_go_through "initialized" "" fresh_tracker
      = (Returned true, w') /\
    state_data w' = Some d' /\
    stateHistory d' = [e] /\
    he_event e = "State transition: initialized → initialized" /\
    write_attempts w' = 1%nat /\
    disk w' = Holds (Some d').
Proof.
  split; [reflexivity|].
  destruct (update_state_same_state_not_noop second_of writes_go_through
              fresh_tracker first_document "" eq_refl)
    as (w' & d' & e & R & S & Hh & _ & He & _ & A & _ & D).
  exists w', d', e. repeat split; auto.
Defined.

Lemma detect_pattern_any_confidence_witness :
  starting_document second_of fresh_tracker = Some first_document /\
  exists (w' : world) (d' : document) (e : emergent_entry),
    detect_pattern second_of writes_go_through "drift" "out of range" 1.5%float
      fresh_tracker = (Returned true, w') /\
    state_data w' = Some d' /\
    emergent (patterns_ d') = [e] /\
    pe_confidence e = 1.5%float.
Proof.
  split; [reflexivity|].
  destruct (detect_pattern_any_confidence second_of writes_go_through
              fresh_tracker first_document "drift" "out of range" 1.5%float
              eq_refl)
    as (w' & d' & e & R & S & He & Hc & _).
  exists w', d', e. repeat split; auto.
Defined.

(** A tracker with a past: one transition made and one pattern detected,
    so that its document has an entry in each of the two sequences. *)
Definition seasoned_tracker : world :=
  run_all second_of writes_go_through
    [Transition "active" "first run"; DetectPattern "drift" "seen" 0.5%float]
    fresh_tracker.

Definition seasoned_document : document :=
  effect (second_of 2) (DetectPattern "drift" "seen" 0.5%float)
    (effect (second_of 1) (Transition "active" "first run") first_document).

Lemma seasoned_tracker_document :
  starting_document second_of seasoned_tracker = Some seasoned_document.
Proof. vm_compute. reflexivity. Defined.

Lemma operations_append_only_witness :
  starting_document second_of seasoned_tracker = Some seasoned_document /\
  stateHistory seasoned_document
  = [ HistoryEntry "2024-01-01T00:00:01Z" "active"
        "State transition: initialized → active (first run)" true "" ] /\
  length (emergent (patterns_ seasoned_document)) = 1%nat /\
  (exists d' : document,
     state_data
       (snd (run second_of writes_go_through (Transition "settled" "")
               seasoned_tracker)) = Some d' /\
     stateHistory seasoned_document `prefix_of` stateHistory d' /\
     emergent (patterns_ seasoned_document) `prefix_of` emergent (patterns_ d')) /\
  (exists d' : document,
     state_data
       (snd (run second_of writes_go_through
               (DetectPattern "drift" "again" 0.25%float) seasoned_tracker))
     = Some d' /\
     stateHistory seasoned_document `prefix_of` stateHistory d' /\
     emergent (patterns_ seasoned_document) `prefix_of` emergent (patterns_ d')).
Proof.
  split; [exact seasoned_tracker_document|].
  split; [vm_compute; reflexivity|]. split; [vm_compute; reflexivity|].
  split.
  - destruct (operations_append_only second_of writes_go_through
                (Transition "settled" "") seasoned_tracker seasoned_document
                seasoned_tracker_document)
      as (d' & hs & ps & S & _ & _ & _ & _ & H & P).
    exists d'. repeat split; assumption.
  - destruct (operations_append_only second_of writes_go_through
                (DetectPattern "drift" "again" 0.25%float) seasoned_tracker
                seasoned_document seasoned_tracker_document)
      as (d' & hs & ps & S & _ & _ & _ & _ & H & P).
    exists d'. repeat split; assumption.
Defined.

Lemma first_document_within_ceiling :
  depth (recursive_ (patterns_ first_document))
  <= maxDepth (recursive_ (patterns_ first_document)).
Proof. discriminate. Defined.

Lemma recursive_depth_never_exceeds_maxDepth_witness :
  starting_document second_of fresh_tracker = Some first_document /\
  exists w_n : world,
    increase_times second_of writes_go_through 6 fresh_tracker
      = (Returned [true; true; true; true; true; false], w_n) /\
    state_data w_n = Some (set_depth 5 first_document) /\
    increase_recursive_depth second_of writes_go_through w_n
      = (Returned false, w_n).
Proof.
  split; [reflexivity|].
  destruct (recursive_depth_never_exceeds_maxDepth second_of writes_go_through
              fresh_tracker first_document eq_refl
              first_document_within_ceiling) as [_ K].
  destruct (K eq_refl) as (w_n & _ & D & F & R & _).
  exists w_n. repeat split; auto.
Defined.

Lemma first_document_predeclared : predeclared_dimensions first_document.
Proof. vm_compute. reflexivity. Defined.

(** C4, counterexample: a tracker that loads a document with a dimension
    ["custom"] and no dimension ["ethical"].  A write to ["custom"], which
    is none of the five names, goes through and returns [True]; a write to
    ["ethical"], one of the five, is refused. *)
Lemma update_dimension_not_checked_against_five_names :
  ~ dimension_checked_against_five_names second_of writes_go_through
      loaded_custom_tracker "custom" "k" (JInt 1) /\
  ~ dimension_checked_against_five_names second_of writes_go_through
      loaded_custom_tracker "ethical" "k" (JInt 1).
Proof.
  split; intros H.
  - destruct (H custom_document eq_refl) as [N _].
    destruct N as (w' & R & _).
    + unfold predeclared. rewrite !not_elem_of_cons.
      repeat split; try discriminate. apply not_elem_of_nil.
    + vm_compute in R. discriminate R.
  - destruct (H custom_document eq_refl) as [_ I].
    destruct I as (w' & d' & m & Hm & _).
    + unfold predeclared. do 4 apply list_elem_of_further.
      apply list_elem_of_here.
    + vm_compute in Hm. discriminate Hm.
Qed.

Lemma update_dimension_by_document_keys_witness :
  starting_document second_of fresh_tracker = Some first_document /\
  (exists w' : world,
     update_dimension second_of writes_go_through "nonexistent" "k" (JInt 1)
       fresh_tracker = (Returned false, w') /\
     state_data w' = Some first_document /\
     disk w' = Missing /\
     write_attempts w' = 0%nat) /\
  (exists (w' : world) (d' : document),
     update_dimension second_of writes_go_through "temporal" "k" (JInt 1)
       fresh_tracker = (Returned true, w') /\
     state_data w' = Some d' /\
     dimensions d' !! "temporal" = Some (<["k" := JInt 1]> ∅) /\
     write_attempts w' = 1%nat /\
     disk w' = Holds (Some d')).
Proof.
  split; [reflexivity|]. split.
  - destruct (update_dimension_by_document_keys second_of writes_go_through
                fresh_tracker first_document "nonexistent" "k" (JInt 1)
                eq_refl) as [N _].
    apply N. vm_compute. reflexivity.
  - destruct (update_dimension_by_document_keys second_of writes_go_through
                fresh_tracker first_document "temporal" "k" (JInt 1)
                eq_refl) as (_ & I & _).
    destruct (I ∅) as (w' & d' & R & S & _ & L & _ & _ & _ & A & D).
    { vm_compute. reflexivity. }
    exists w', d'. repeat split; auto.
Defined.

Lemma load_save_load_default_witness :
  writes_go_through 0%nat = WriteOk /\
  exists (w1 w2 w3 : world) (d : document),
    load_state second_of fresh_tracker = (Returned true, w1) /\
    state_data w1 = Some d /\
    save_state writes_go_through w1 = (Returned true, w2) /\
    load_state second_of w2 = (Returned true, w3) /\
    state_data w3 = Some d /\
    d = first_document.
Proof.
  split; [reflexivity|].
  destruct (load_save_load_default second_of writes_go_through None 0 0 eq_refl)
    as (w1 & w2 & w3 & d & L1 & S1 & Sv & L2 & S3 & _ & Hd & _).
  exists w1, w2, w3, d. repeat split; auto.
Defined.

(** *** More of the tracker, on the first run and across file systems *)

(** A write that fails is reported and not undone.  If the write an
    operation makes does not go through, the operation returns [False]
    (when it returns), and the document in memory is the one that a
    successful write would have left there. *)
Theorem failed_write_is_not_rolled_back
  (utcnow : nat -> string) (failing other : nat -> write_outcome)
  (op : operation) (w : world) :
  failing (write_attempts w) <> WriteOk ->
  state_data (snd (run utcnow failing op w))
  = state_data (snd (run utcnow other op w)) /\
  forall (b : bool) (w' : world),
    run utcnow failing op w = (Returned b, w') -> b = false.
Proof.
  intros F. destruct (starting_document utcnow w) as [d|] eqn:E.
  - split.
    + rewrite (run_effect utcnow failing op w d E).
      rewrite (run_effect utcnow other op w d E). reflexivity.
    + assert (K : write_ok (failing (write_attempts (after_load utcnow w)))
                  = false).
      { rewrite after_load_writes.
        destruct (failing (write_attempts w)); [congruence|reflexivity..]. }
      intros b w'. destruct op; simpl.
      * rewrite (add_state_event_spec utcnow failing w d _ _ _ E).
        cbv zeta. rewrite K. intros [= <- _]. reflexivity.
      * rewrite (update_state_spec utcnow failing w d _ _ E).
        cbv zeta. rewrite K. intros [= <- _]. reflexivity.
      * rewrite (detect_pattern_spec utcnow failing w d _ _ _ E).
        cbv zeta. rewrite K. intros [= <- _]. reflexivity.
      * rewrite (increase_recursive_depth_spec utcnow failing w d E).
        cbv zeta. destruct (_ <? _); rewrite ?K; intros [= <- _]; reflexivity.
      * rewrite (update_dimension_spec utcnow failing w d _ _ _ E).
        cbv zeta. destruct (_ !! _); rewrite ?K; intros [= <- _]; reflexivity.
  - destruct (run_without_document utcnow failing op w E) as (w1 & R1 & S1 & _).
    destruct (run_without_document utcnow other op w E) as (w2 & R2 & S2 & _).
    rewrite R1, R2. simpl. split; [congruence|]. intros b w'. discriminate.
Qed.

(** A file system where no write goes through. *)
Definition writes_fail : nat -> write_outcome := fun _ => OpenFails.

Lemma failed_write_is_not_rolled_back_witness :
  writes_fail (write_attempts fresh_tracker) <> WriteOk /\
  state_data (snd (run second_of writes_fail (Transition "active" "")
                     fresh_tracker))
  = state_data (snd (run second_of writes_go_through (Transition "active" "")
                       fresh_tracker)).
Proof.
  assert (F : writes_fail (write_attempts fresh_tracker) <> WriteOk)
    by discriminate.
  split; [exact F|].
  exact (proj1 (failed_write_is_not_rolled_back second_of writes_fail
                  writes_go_through (Transition "active" "") fresh_tracker F)).
Defined.

Lemma operations_keep_the_rest_witness :
  starting_document second_of fresh_tracker = Some first_document /\
  exists d' : document,
    state_data (snd (run second_of writes_go_through
                       (SetDimension "temporal" "k" (JInt 1)) fresh_tracker))
    = Some d' /\
    version d' = "1.0.0" /\
    currentState d' = currentState first_document /\
    patterns_ d' = patterns_ first_document.
Proof.
  split; [reflexivity|].
  destruct (operations_keep_the_rest second_of writes_go_through
              (SetDimension "temporal" "k" (JInt 1)) fresh_tracker
              first_document eq_refl)
    as (d' & S & V & _ & _ & _ & _ & _ & _ & C & _ & P).
  exists d'. repeat split; assumption.
Defined.

Lemma first_document_in_step : history_in_step first_document.
Proof. exact I. Defined.

Lemma history_stays_in_step_witness :
  starting_document second_of fresh_tracker = Some first_document /\
  history_in_step first_document /\
  exists d' : document,
    starting_document second_of
      (run_all second_of writes_go_through
         [Transition "active" ""; DetectPattern "drift" "seen" 0.5%float;
          RecordEvent "checked" "" true] fresh_tracker) = Some d' /\
    history_in_step d'.
Proof.
  split; [reflexivity|]. split; [exact first_document_in_step|].
  exact (history_stays_in_step second_of writes_go_through
           [Transition "active" ""; DetectPattern "drift" "seen" 0.5%float;
            RecordEvent "checked" "" true]
           fresh_tracker first_document eq_refl first_document_in_step).
Defined.

Definition after_first_transition : world :=
  snd (run second_of writes_go_through (Transition "active" "") fresh_tracker).

Lemma first_transition_returns_true :
  run second_of writes_go_through (Transition "active" "") fresh_tracker
  = (Returned true, after_first_transition).
Proof. vm_compute. reflexivity. Defined.

Lemma returned_value_and_the_write_witness :
  run second_of writes_go_through (Transition "active" "") fresh_tracker
  = (Returned true, after_first_transition) /\
  writes_go_through (write_attempts fresh_tracker) = WriteOk /\
  write_attempts after_first_transition = 1%nat.
Proof.
  split; [exact first_transition_returns_true|].
  destruct (returned_value_and_the_write second_of writes_go_through
              (Transition "active" "") fresh_tracker after_first_transition
              true first_transition_returns_true) as (T & _).
  exact (T eq_refl).
Defined.

Lemma add_state_event_twice_two_entries_witness :
  starting_document second_of fresh_tracker = Some first_document /\
  exists d' : document,
    state_data
      (run_all second_of writes_go_through
         [RecordEvent "ping" "" true; RecordEvent "ping" "" true] fresh_tracker)
    = Some d' /\
    stateHistory d'
    = [ HistoryEntry "2024-01-01T00:00:01Z" "initialized" "ping" true "";
        HistoryEntry "2024-01-01T00:00:02Z" "initialized" "ping" true "" ].
Proof.
  split; [reflexivity|].
  destruct (add_state_event_twice_two_entries second_of writes_go_through
              fresh_tracker first_document "ping" "" "ping" "" true true eq_refl)
    as (d' & S & H & _).
  exists d'. split; assumption.
Defined.

Lemma update_state_then_get_current_state_witness :
  starting_document second_of fresh_tracker = Some first_document /\
  exists c : current_state,
    get_current_state second_of after_first_transition
    = (Returned c, after_first_transition) /\
    state c = "active" /\
    lastEvaluation c = "2024-01-01T00:00:01Z".
Proof.
  split; [reflexivity|].
  destruct (update_state_then_get_current_state second_of writes_go_through
              fresh_tracker first_document "active" "" eq_refl)
    as (c & G & S & L & _).
  exists c. repeat split; assumption.
Defined.

Lemma update_dimension_last_write_wins_witness :
  starting_document second_of fresh_tracker = Some first_document /\
  state_data
    (run_all second_of writes_go_through
       [SetDimension "temporal" "k" (JInt 1);
        SetDimension "temporal" "k" (JInt 2)] fresh_tracker)
  = state_data
      (run_all second_of writes_go_through
         [SetDimension "temporal" "k" (JInt 2)] fresh_tracker).
Proof.
  split; [reflexivity|].
  exact (update_dimension_last_write_wins second_of writes_go_through
           fresh_tracker first_document "temporal" "k" (JInt 1) (JInt 2)
           eq_refl).
Defined.

Lemma temporal_is_not_spatial : "temporal" <> "spatial" \/ "k" <> "k".
Proof. left. discriminate. Defined.

Lemma update_dimension_writes_commute_witness :
  starting_document second_of fresh_tracker = Some first_document /\
  ("temporal" <> "spatial" \/ "k" <> "k") /\
  state_data
    (run_all second_of writes_go_through
       [SetDimension "temporal" "k" (JInt 1);
        SetDimension "spatial" "k" (JInt 2)] fresh_tracker)
  = state_data
      (run_all second_of writes_go_through
         [SetDimension "spatial" "k" (JInt 2);
          SetDimension "temporal" "k" (JInt 1)] fresh_tracker).
Proof.
  split; [reflexivity|]. split; [exact temporal_is_not_spatial|].
  exact (update_dimension_writes_commute second_of writes_go_through
           fresh_tracker first_document "temporal" "k" "spatial" "k"
           (JInt 1) (JInt 2) eq_refl temporal_is_not_spatial).
Defined.

Lemma first_document_ceiling_not_negative :
  0 <= maxDepth (recursive_ (patterns_ first_document)).
Proof. discriminate. Defined.

Lemma depth_after_calls_and_its_stamp_witness :
  starting_document second_of fresh_tracker = Some first_document /\
  exists (bs : list bool) (w_n w' : world) (d' : document) (e : emergent_entry),
    increase_times second_of writes_go_through 8
      (after_load second_of fresh_tracker) = (Returned bs, w_n) /\
    state_data w_n = Some (set_depth 5 first_document) /\
    state_data w' = Some d' /\
    emergent (patterns_ d') = [e] /\
    pe_recursiveDepth e = 5.
Proof.
  split; [reflexivity|].
  destruct (depth_after_calls_and_its_stamp second_of writes_go_through
              fresh_tracker first_document 8 "drift" "seen" 0.5%float
              eq_refl eq_refl first_document_ceiling_not_negative)
    as (bs & w_n & w' & d' & e & b & R & _ & D & _ & S & Em & St).
  exists bs, w_n, w', d', e. repeat split; assumption.
Defined.

Lemma save_before_load_writes_null_witness :
  writes_go_through 0%nat = WriteOk /\
  save_state writes_go_through fresh_tracker
  = (Returned true, World None (Holds None) 0 1).
Proof.
  split; [reflexivity|].
  exact (proj1 (save_before_load_writes_null second_of writes_go_through
                  Missing 0 0 eq_refl)).
Defined.

End StateTracker.

(** * The Pattern Analyzer *)

Module PatternAnalyzer.

(** ** Python's string operations, on ASCII text *)

Definition LF : ascii := "010"%char.

(** [str.isspace] on one ASCII character: tab to carriage return, the four
    separators 28 to 31, and the space. *)
Definition is_space (c : ascii) : bool :=
  let n := nat_of_ascii c in
  ((9 <=? n) && (n <=? 13) || (28 <=? n) && (n <=? 32))%nat.

Fixpoint lstrip (s : string) : string :=
  match s with
  | EmptyString => EmptyString
  | String c r => if is_space c then lstrip r else s
  end.

Fixpoint rstrip (s : string) : string :=
  match s with
  | EmptyString => EmptyString
  | String c r =>
      match rstrip r with
      | EmptyString => if is_space c then EmptyString else String c EmptyString
      | r' => String c r'
      end
  end.

(** [s.strip()] *)
Definition strip (s : string) : string := rstrip (lstrip s).

(** [s.split(sep)] for a separator of one character: never empty. *)
Fixpoint split_on (sep : ascii) (s : string) : list string :=
  match s with
  | EmptyString => [EmptyString]
  | String c r =>
      if Ascii.eqb c sep then EmptyString :: split_on sep r
      else
        match split_on sep r with
        | part :: parts => String c part :: parts
        | [] => [String c EmptyString]
        end
  end.

(** [s.split()]: the maximal runs of characters that are not whitespace. *)
Fixpoint split_whitespace (s : string) : list string :=
  match s with
  | EmptyString => []
  | String c r =>
      if is_space c then split_whitespace r
      else
        match r with
        | EmptyString => [String c EmptyString]
        | String c' _ =>
            if is_space c' then String c EmptyString :: split_whitespace r
            else
              match split_whitespace r with
              | word :: words => String c word :: words
              | [] => [String c EmptyString]
              end
        end
  end.

Definition lower_char (c : ascii) : ascii :=
  let n := nat_of_ascii c in
  if ((65 <=? n) && (n <=? 90))%nat then ascii_of_nat (n + 32) else c.

(** [s.lower()] *)
Fixpoint lower (s : string) : string :=
  match s with
  | EmptyString => EmptyString
  | String c r => String (lower_char c) (lower r)
  end.

(** [c in s] for one character. *)
Fixpoint contains (c : ascii) (s : string) : bool :=
  match s with
  | EmptyString => false
  | String c' r => Ascii.eqb c' c || contains c r
  end.

(** [sep.join(parts)] *)
Definition join (sep : string) (parts : list string) : string :=
  String.concat sep parts.

(** [s.rsplit(sep, 1)[0]]: what stands before the last separator. *)
Definition rsplit_head (sep : ascii) (s : string) : string :=
  join (String sep EmptyString) (removelast (split_on sep s)).

(** [str(n)] for a length or a count. *)
Definition str_nat (n : nat) : string := NilZero.string_of_uint (Nat.to_uint n).

(** A string is true when it has a character. *)
Definition nonempty (s : string) : bool :=
  match s with
  | EmptyString => false
  | String _ _ => true
  end.

Definition digit_value (c : ascii) : option Z :=
  let n := nat_of_ascii c in
  if ((48 <=? n) && (n <=? 57))%nat then Some (Z.of_nat (n - 48)) else None.

(** Decimal digits, single underscores allowed between two digits. *)
Fixpoint digits_value (acc : Z) (after_digit : bool) (s : string) : option Z :=
  match s with
  | EmptyString => if after_digit then Some acc else None
  | String c r =>
      if Ascii.eqb c "_"%char then
        if after_digit then digits_value acc false r else None
      else
        match digit_value c with
        | Some v => digits_value (10 * acc + v) true r
        | None => None
        end
  end.

(** The whitespace [int] passes over at both ends of ASCII text: that of
    C's [isspace], tab to carriage return and the space.  The separators
    28 to 31, which [str.strip] removes, are not among it. *)
Definition is_int_space (c : ascii) : bool :=
  let n := nat_of_ascii c in
  ((9 <=? n) && (n <=? 13) || (n =? 32))%nat.

Fixpoint int_lstrip (s : string) : string :=
  match s with
  | EmptyString => EmptyString
  | String c r => if is_int_space c then int_lstrip r else s
  end.

Fixpoint int_rstrip (s : string) : string :=
  match s with
  | EmptyString => EmptyString
  | String c r =>
      match int_rstrip r with
      | EmptyString => if is_int_space c then EmptyString else String c EmptyString
      | r' => String c r'
      end
  end.

Fixpoint count_digits (s : string) : nat :=
  match s with
  | EmptyString => O
  | String c r =>
      match digit_value c with
      | Some _ => S (count_digits r)
      | None => count_digits r
      end
  end.

(** The interpreter's default limit on the digits of a decimal numeral
    ([sys.int_info.default_max_str_digits]). *)
Definition max_str_digits : nat := 4300.

(** A numeral without its sign: refused when it has more digits than the
    limit. *)
Definition numeral_value (numeral : string) : option Z :=
  if (max_str_digits <? count_digits numeral)%nat then None
  else digits_value 0 false numeral.

(** [int(s)] on ASCII text: [None] stands for [ValueError]. *)
Definition py_int (s : string) : option Z :=
  match int_rstrip (int_lstrip s) with
  | String "+" r => numeral_value r
  | String "-" r => Z.opp <$> numeral_value r
  | t => numeral_value t
  end.

(** [repr(s)], as CPython writes it: double quotes when the text has a
    single quote and no double quote, single quotes otherwise; the quote
    in use and the backslash escaped; tab, line feed and carriage return by
    letter, other control characters in hexadecimal. *)
Definition single_quote : ascii := "039"%char.
Definition double_quote : ascii := "034"%char.
Definition backslash : ascii := "092"%char.

Definition hex_digit (n : nat) : ascii :=
  if (n <? 10)%nat then ascii_of_nat (48 + n) else ascii_of_nat (87 + n).

Definition repr_char (quote c : ascii) : string :=
  let n := nat_of_ascii c in
  if Ascii.eqb c quote || Ascii.eqb c backslash then
    String backslash (String c EmptyString)
  else if (n =? 9)%nat then String backslash "t"
  else if (n =? 10)%nat then String backslash "n"
  else if (n =? 13)%nat then String backslash "r"
  else if ((n <? 32) || (n =? 127))%nat then
    String backslash
      (String "x" (String (hex_digit (n / 16)) (String (hex_digit (n mod 16))
         EmptyString)))
  else String c EmptyString.

Fixpoint repr_body (quote : ascii) (s : string) : string :=
  match s with
  | EmptyString => EmptyString
  | String c r => repr_char quote c +:+ repr_body quote r
  end.

Definition repr_str (s : string) : string :=
  let quote :=
    if contains single_quote s && negb (contains double_quote s)
    then double_quote else single_quote in
  String quote (repr_body quote s +:+ String quote EmptyString).

(** ** Counters

    A [defaultdict(int)]: the keys in the order of their first count. *)
Fixpoint count_one (key : string) (counts : list (string * Z))
  : list (string * Z) :=
  match counts with
  | [] => [(key, 1)]
  | (k, n) :: rest =>
      if String.eqb k key then (k, n + 1) :: rest
      else (k, n) :: count_one key rest
  end.

(** [repr(dict(counts))] *)
Definition repr_counts (counts : list (string * Z)) : string :=
  "{" +:+
  join ", "
    (map (fun kn : string * Z =>
            repr_str (fst kn) +:+ ": " +:+ NilZero.string_of_int (Z.to_int (snd kn)))
       counts)
  +:+ "}".

(** [sorted(items, key=lambda x: x[1], reverse=True)]: by count, higher
    first; the sort is stable, so equal counts stay in the order they came
    in. *)
Fixpoint insert_by_count (x : string * Z) (sorted : list (string * Z))
  : list (string * Z) :=
  match sorted with
  | [] => [x]
  | y :: rest =>
      if snd x <? snd y then y :: insert_by_count x rest
      else x :: sorted
  end.

Definition sorted_by_count (items : list (string * Z)) : list (string * Z) :=
  foldr insert_by_count [] items.


(** ** Commits and patterns *)

(** One commit, from one line of [git log --format=%H|%an|%ae|%at|%s]. *)
Record commit : Type := Commit {
  hash : string;
  author : string;
  email : string;
  timestamp : Z;
  message : string
}.

(** One pattern record. *)
Record pattern : Type := Pattern {
  type : string;
  description : string;
  depth : Z;
  confidence : float
}.

(** What [open(gfile, 'r')] does. *)
Inductive open_result : Type :=
  | Opened
  | NotFound       (* FileNotFoundError *)
  | OtherError.    (* any other exception *)

(** The repository the analyzer looks at.  A [subprocess.run] gives its
    standard output, or [None] when it raises (git missing, or a non-zero
    exit under [check=True]).  The recursion runs [git log] once per
    depth; [git_log d] is the run made at depth [d]. *)
Record repository : Type := Repository {
  git_log : Z -> option string;
  git_ls_files : option string;
  git_ls_files_md : option string;
  open_read : string -> open_result
}.

(** The lines of a command's output that are not empty. *)
Definition output_lines (stdout : string) : list string :=
  split_on LF (strip stdout).

(** The loop that fills [commits]; [None] when [int] raises. *)
Fixpoint parse_commits (lines : list string) : option (list commit) :=
  match lines with
  | [] => Some []
  | line :: rest =>
      if nonempty line then
        match split_on "|" line with
        | p0 :: p1 :: p2 :: p3 :: p4 :: _ =>
            t ← py_int p3;
            commits ← parse_commits rest;
            Some (Commit p0 p1 p2 t p4 :: commits)
        | _ => parse_commits rest
        end
      else parse_commits rest
  end.

(** Pattern 1: commit frequency. *)
Definition commit_frequency (commits : list commit) (depth : Z) : list pattern :=
  if (1 <? length commits)%nat then
    [ {| type := "commit_frequency";
         description :=
           "Repository has " +:+ str_nat (length commits) +:+ " commits";
         depth := depth;
         confidence := 1.0 |} ]
  else [].

(** Pattern 2: author diversity. *)
Definition authors (commits : list commit) : gset string :=
  list_to_set (map author commits).

Definition author_diversity (commits : list commit) (depth : Z) : list pattern :=
  if (0 <? size (authors commits))%nat then
    [ {| type := "author_diversity";
         description :=
           str_nat (size (authors commits)) +:+ " unique author(s) detected";
         depth := depth;
         confidence := 1.0 |} ]
  else [].

(** Pattern 3: message patterns. *)
Definition count_words (counts : list (string * Z)) (words : list string)
  : list (string * Z) :=
  fold_left
    (fun counts word =>
       if (3 <? String.length word)%nat then count_one word counts else counts)
    words counts.

Definition message_keywords (commits : list commit) : list (string * Z) :=
  fold_left
    (fun counts c => count_words counts (split_whitespace (lower (message c))))
    commits [].

Definition top_keywords (commits : list commit) : list (string * Z) :=
  take 5 (sorted_by_count (message_keywords commits)).

#[warnings="-inexact-float"]
Definition message_patterns (commits : list commit) (depth : Z) : list pattern :=
  match message_keywords commits with
  | [] => []
  | _ :: _ =>
      [ {| type := "message_patterns";
           description :=
             "Top keywords: " +:+ join ", " (map fst (top_keywords commits));
           depth := depth;
           confidence := 0.8 |} ]
  end.

(** What one level adds, from the output of its [git log]. *)
Definition commit_level (stdout : string) (depth : Z) : option (list pattern) :=
  commits ← parse_commits (output_lines stdout);
  Some (commit_frequency commits depth ++ author_diversity commits depth
          ++ message_patterns commits depth).

(** ** What the report is made of *)

Definition upper_char (c : ascii) : ascii :=
  let n := nat_of_ascii c in
  if ((97 <=? n) && (n <=? 122))%nat then ascii_of_nat (n - 32) else c.

(** [s.upper()] *)
Fixpoint upper (s : string) : string :=
  match s with
  | EmptyString => EmptyString
  | String c r => String (upper_char c) (upper r)
  end.

(** [s.replace(a, b)] for two single characters. *)
Fixpoint replace_char (a b : ascii) (s : string) : string :=
  match s with
  | EmptyString => EmptyString
  | String c r =>
      String (if Ascii.eqb c a then b else c) (replace_char a b r)
  end.

(** [s * n]: nothing when [n] is not positive. *)
Fixpoint repeat_string (s : string) (n : nat) : string :=
  match n with
  | O => EmptyString
  | S n' => s +:+ repeat_string s n'
  end.

Definition times (s : string) (n : Z) : string := repeat_string s (Z.to_nat n).

(** [str(n)] for an integer. *)
Definition str_int (z : Z) : string := NilZero.string_of_int (Z.to_int z).

(** The integer nearest to [m * 2 ^ e], a tie going to the even one. *)
Definition nearest_even (m : positive) (e : Z) : Z :=
  if 0 <=? e then Z.pos m * 2 ^ e
  else
    let unit := 2 ^ (- e) in
    let q := Z.pos m / unit in
    let r := Z.pos m mod unit in
    match 2 * r ?= unit with
    | Lt => q
    | Gt => q + 1
    | Eq => if Z.even q then q else q + 1
    end.

(** [f"{x:.0f}"]: the value rounded to an integer, correctly and to even;
    the sign is kept, also on a zero. *)
Definition format_0f (x : float) : string :=
  match Prim2SF x with
  | S754_nan => "nan"
  | S754_infinity s => if s then "-inf" else "inf"
  | S754_zero s => if s then "-0" else "0"
  | S754_finite s m e =>
      (if s then "-" else "") +:+ str_int (nearest_even m e)
  end.

(** [patterns_by_type[pattern["type"]].append(pattern)] on a
    [defaultdict(list)]: the types in the order they were first seen. *)
Fixpoint group_append (p : pattern) (groups : list (string * list pattern))
  : list (string * list pattern) :=
  match groups with
  | [] => [(type p, [p])]
  | (t, ps) :: rest =>
      if String.eqb t (type p) then (t, ps ++ [p]) :: rest
      else (t, ps) :: group_append p rest
  end.

Definition patterns_by_type (patterns : list pattern)
  : list (string * list pattern) :=
  fold_left (fun groups p => group_append p groups) patterns [].

(** [sorted(patterns_by_type.items())]: by type, in the order of the
    characters; no two items have the same type, so the lists are never
    compared. *)
Fixpoint insert_by_type (x : string * list pattern)
  (sorted : list (string * list pattern)) : list (string * list pattern) :=
  match sorted with
  | [] => [x]
  | y :: rest =>
      if String.ltb (fst y) (fst x) then y :: insert_by_type x rest
      else x :: sorted
  end.

Definition sorted_by_type (items : list (string * list pattern))
  : list (string * list pattern) :=
  foldr insert_by_type [] items.

(** The line of the report for one pattern. *)
Definition pattern_line (p : pattern) : string :=
  let depth_indicator := times "  " (depth p) in
  let confidence := (confidence p * 100)%float in
  depth_indicator +:+ "• " +:+ description p +:+ " (confidence: "
    +:+ format_0f confidence +:+ "%, depth: " +:+ str_int (depth p) +:+ ")".

(** The lines for one type: its heading, then its patterns. *)
Definition group_lines (group : string * list pattern) : list string :=
  (String LF EmptyString +:+ replace_char "_" " " (upper (fst group)) +:+ ":")
  :: map pattern_line (snd group).

(** The heading of a group, and the test that tells a heading from the
    line of a pattern: a heading starts with a line break, the line of a
    pattern with its indentation or its bullet. *)
Definition group_heading (group : string * list pattern) : string :=
  String LF EmptyString +:+ replace_char "_" " " (upper (fst group)) +:+ ":".

Definition is_group_heading (line : string) : bool :=
  match line with
  | String c _ => Ascii.eqb c LF
  | EmptyString => false
  end.

(** The nine lines the report opens with, and the two it closes with. *)
Definition report_opening (max_depth : Z) (count : nat) (now : string)
  : list string :=
  [ times "=" 70;
    "RECURSIVE PATTERN ANALYSIS REPORT";
    times "=" 70;
    "Timestamp: " +:+ now;
    "Max Recursive Depth: " +:+ str_int max_depth;
    "Patterns Detected: " +:+ str_nat count;
    "";
    "DETECTED PATTERNS";
    times "-" 70 ].

Definition report_closing : list string := [ ""; times "=" 70 ].

(** ** Inputs: the scenario of four commits *)

(** What [git log] prints for four commits by two authors, one line each. *)
Definition scenario_log : string :=
  join (String LF EmptyString)
    [ "4d2a|Ada|ada@example.org|1700000300|fix bug now";
      "3c19|Grace|grace@example.org|1700000200|add feature now";
      "2b08|Ada|ada@example.org|1700000100|now refine logic";
      "1af7|Grace|grace@example.org|1700000000|now cleanup" ]
  +:+ String LF EmptyString.

Definition scenario : repository :=
  {| git_log := fun _ => Some scenario_log;
     git_ls_files := None;
     git_ls_files_md := None;
     open_read := fun _ => NotFound |}.

Definition observation (ty descr : string) (d : Z) (p : pattern) : Prop :=
  type p = ty /\ description p = descr /\ depth p = d.

(** A keyword observation whose first, that is top, keyword is [kw]. *)
Definition keyword_observation_led_by (kw : string) (d : Z) (p : pattern)
  : Prop :=
  type p = "message_patterns" /\ depth p = d /\
  exists others : list string,
    description p = "Top keywords: " +:+ join ", " (kw :: others).

Definition scenario_patterns (d : Z) : list pattern :=
  [ {| type := "commit_frequency";
       description := "Repository has 4 commits";
       depth := d; confidence := 1.0 |};
    {| type := "author_diversity";
       description := "2 unique author(s) detected";
       depth := d; confidence := 1.0 |};
    {| type := "message_patterns";
       description := "Top keywords: feature, refine, logic, cleanup";
       depth := d; confidence := 0x1.999999999999ap-1 |} ].


(** A repository with tracked files, documentation and one of the two
    genesis files; its history is the scenario's. *)
Definition sample_repository : repository :=
  {| git_log := fun _ => Some scenario_log;
     git_ls_files :=
       Some (join (String LF EmptyString)
               ["README.md"; "GENESIS.md"; "src/state_tracker.py";
                "src/pattern_analyzer.py"; "Makefile"]);
     git_ls_files_md :=
       Some (join (String LF EmptyString) ["README.md"; "GENESIS.md"]);
     open_read := fun f => if String.eqb f "GENESIS.md" then Opened else NotFound |}.

(** The keywords that are counted: more than three characters. *)
Definition long_keyword (kn : string * Z) : Prop :=
  (3 < String.length (fst kn))%nat.

(** The text up to the first separator. *)
Fixpoint before (sep : ascii) (s : string) : string :=
  match s with
  | EmptyString => EmptyString
  | String c r => if Ascii.eqb c sep then EmptyString else String c (before sep r)
  end.

(** [counts.get(key, 0)] *)
Fixpoint count_of (key : string) (counts : list (string * Z)) : Z :=
  match counts with
  | [] => 0
  | (k, n) :: rest => if String.eqb k key then n else count_of key rest
  end.

(** How many times [key] stands in a list of words. *)
Definition occurrences (key : string) (words : list string) : Z :=
  Z.of_nat (length (List.filter (String.eqb key) words)).

(** Counting a list of words one after the other. *)
Definition tally (words : list string) (counts : list (string * Z))
  : list (string * Z) :=
  fold_left (fun counts word => count_one word counts) words counts.

(** The words of the commit messages that are counted: lowercased, split
    at whitespace, longer than three characters. *)
Definition counted_words (commits : list commit) : list string :=
  flat_map
    (fun c => List.filter (fun word => (3 <? String.length word)%nat)
                (split_whitespace (lower (message c))))
    commits.

(** The suffixes that are counted: what follows the last dot, for the
    files that have a dot. *)
Definition counted_suffixes (files : list string) : list string :=
  map (fun file => List.last (split_on "." file) "")
    (List.filter (contains ".") files).

(** The patterns of one type, in the order they have in the list. *)
Definition of_type (t : string) (patterns : list pattern) : list pattern :=
  List.filter (fun p => String.eqb (type p) t) patterns.

(** The order of the groups in the report: by type, strictly. *)
Definition type_before (x y : string * list pattern) : Prop :=
  String.compare (fst x) (fst y) = Lt.

(** A line that stops the parsing: it has five fields or more, and the
    fourth is not an integer. *)
Definition bad_timestamp_line (line : string) : Prop :=
  exists (p0 p1 p2 p3 p4 : string) (rest : list string),
    split_on "|" line = p0 :: p1 :: p2 :: p3 :: p4 :: rest /\
    py_int p3 = None.

(** The three observations on a list of commits, tagged with a depth. *)
Definition level_patterns (commits : list commit) (d : Z) : list pattern :=
  commit_frequency commits d ++ author_diversity commits d
    ++ message_patterns commits d.

(** A confidence between 0 and 1, in floating-point comparison. *)
Definition in_unit_interval (c : float) : Prop :=
  (0 <=? c)%float = true /\ (c <=? 1)%float = true.

Definition commit_types : list string :=
  ["commit_frequency"; "author_diversity"; "message_patterns"].
Definition file_pattern_types : list string :=
  ["file_types"; "directory_structure"].
Definition ethical_types : list string :=
  ["ethical_documentation"; "ethical_framework"].

Section Analyzer.

Variable max_depth : Z.            (* self.max_depth *)
Variable repo : repository.

(** [analyze_commit_patterns], with a bound on the number of nested calls.
    The code recurses on [depth + 1] while [depth < max_depth - 1]; the
    bound is spent at the same pace, and [analyze_commit_patterns] below
    starts with as much as the distance to [max_depth].  A level that is
    reached with no call left returns the empty list: that is what the code
    does when the interpreter has no room for the level, the
    [RecursionError] being caught by the level's own [except Exception].
    [analyze_commit_patterns] itself is the run of an interpreter with room
    for every level. *)
Fixpoint analyze_commit_patterns_within (calls : nat) (depth : Z)
  : list pattern :=
  if depth >=? max_depth then []
  else
    match calls with
    | O => []
    | S calls' =>
        match git_log repo depth with
        | None => []
        | Some stdout =>
            match commit_level stdout depth with
            | None => []
            | Some patterns =>
                if depth <? max_depth - 1 then
                  patterns ++ analyze_commit_patterns_within calls' (depth + 1)
                else patterns
            end
        end
    end.

Definition analyze_commit_patterns (depth : Z) : list pattern :=
  analyze_commit_patterns_within (Z.to_nat (max_depth - depth)) depth.

(** Pattern 1 of the file analysis: file types. *)
Definition file_types (files : list string) : list (string * Z) :=
  fold_left
    (fun counts file =>
       if contains "." file then count_one (List.last (split_on "." file) "") counts
       else counts)
    files [].

(** Pattern 2 of the file analysis: directories. *)
Definition directories (files : list string) : gset string :=
  list_to_set
    (map (rsplit_head "/") (List.filter (contains "/") files)).

Definition analyze_file_patterns (depth : Z) : list pattern :=
  if depth >=? max_depth then []
  else
    match git_ls_files repo with
    | None => []
    | Some stdout =>
        let files := List.filter nonempty (output_lines stdout) in
        (match file_types files with
         | [] => []
         | _ :: _ =>
             [ {| type := "file_types";
                  description := "File types: " +:+ repr_counts (file_types files);
                  depth := depth;
                  confidence := 1.0 |} ]
         end)
        ++
        (if (0 <? size (directories files))%nat then
           [ {| type := "directory_structure";
                description :=
                  str_nat (size (directories files)) +:+ " directories detected";
                depth := depth;
                confidence := 1.0 |} ]
         else [])
    end.

Definition genesis_files : list string := ["genesis.json"; "GENESIS.md"].

(** The loop over [genesis_files]: a missing file is passed over; any
    other failure to open leaves the loop for the outer [except], with
    [patterns] as far as it got. *)
Fixpoint check_genesis_files (gfiles : list string) (patterns : list pattern)
  : list pattern :=
  match gfiles with
  | [] => patterns
  | gfile :: rest =>
      match open_read repo gfile with
      | Opened =>
          check_genesis_files rest
            (patterns ++
               [ {| type := "ethical_framework";
                    description := "Genesis framework file found: " +:+ gfile;
                    depth := 0;
                    confidence := 1.0 |} ])
      | NotFound => check_genesis_files rest patterns
      | OtherError => patterns
      end
  end.

#[warnings="-inexact-float"]
Definition analyze_ethical_patterns : list pattern :=
  match git_ls_files_md repo with
  | None => []
  | Some stdout =>
      let docs := List.filter nonempty (output_lines stdout) in
      check_genesis_files genesis_files
        (match docs with
         | [] => []
         | _ :: _ =>
             [ {| type := "ethical_documentation";
                  description :=
                    "Documentation files present: " +:+ str_nat (length docs);
                  depth := 0;
                  confidence := 0.9 |} ]
         end)
  end.

(** [analyze_all]; the default [depth=0] of the two calls written out. *)
Definition analyze_all : list pattern :=
  analyze_commit_patterns 0 ++ analyze_file_patterns 0
    ++ analyze_ethical_patterns.

(** [generate_report], for [self.patterns] as it stands ([[]] before
    [analyze_all] has run, its result after) and the time on the clock. *)
Definition report_lines (patterns : list pattern) (now : string) : list string :=
  [ times "=" 70;
    "RECURSIVE PATTERN ANALYSIS REPORT";
    times "=" 70;
    "Timestamp: " +:+ now;
    "Max Recursive Depth: " +:+ str_int max_depth;
    "Patterns Detected: " +:+ str_nat (length patterns);
    "";
    "DETECTED PATTERNS";
    times "-" 70 ]
  ++ concat (map group_lines (sorted_by_type (patterns_by_type patterns)))
  ++ [ ""; times "=" 70 ].

Definition generate_report (patterns : list pattern) (now : string) : string :=
  join (String LF EmptyString) (report_lines patterns now).

(** C8 as the specification words it: what the analysis of the four
    commits is to give when [max_depth] is 2. *)
Definition observations_as_specified : Prop :=
  exists p1 p2 p3 q1 q2 q3 : pattern,
    analyze_commit_patterns 0 = [p1; p2; p3; q1; q2; q3] /\
    observation "commit_frequency" "Repository has 4 commits" 0 p1 /\
    observation "author_diversity" "2 unique author(s) detected" 0 p2 /\
    keyword_observation_led_by "now" 0 p3 /\
    observation "commit_frequency" "Repository has 4 commits" 1 q1 /\
    observation "author_diversity" "2 unique author(s) detected" 1 q2 /\
    keyword_observation_led_by "now" 1 q3.

(** The level at depth [d] fails: its [git log] raises, or a timestamp in
    its output is not an integer. *)
Definition level_fails (d : Z) : Prop :=
  git_log repo d = None \/
  exists stdout : string,
    git_log repo d = Some stdout /\ commit_level stdout d = None.

(** *** The bound on nested calls is never the reason to stop *)

Lemma analyze_commit_patterns_within_enough (c1 : nat) :
  forall (c2 : nat) (depth : Z),
    (Z.to_nat (max_depth - depth) <= c1)%nat ->
    (Z.to_nat (max_depth - depth) <= c2)%nat ->
    analyze_commit_patterns_within c1 depth
    = analyze_commit_patterns_within c2 depth.
Proof.
  induction c1 as [|c1 IH]; intros c2 d H1 H2.
  - assert (max_depth <= d) by lia.
    destruct c2; simpl; destruct (Z.geb_spec d max_depth); auto; lia.
  - destruct c2 as [|c2].
    + assert (max_depth <= d) by lia.
      simpl; destruct (Z.geb_spec d max_depth); auto; lia.
    + simpl. destruct (Z.geb_spec d max_depth); [reflexivity|].
      destruct (git_log repo d); [|reflexivity].
      destruct (commit_level s d); [|reflexivity].
      destruct (Z.ltb_spec d (max_depth - 1)); [|reflexivity].
      f_equal. apply IH; lia.
Qed.

(** With any bound at least the distance to [max_depth], the result is the
    one of [analyze_commit_patterns]: the recursion always stops by the
    test on the depth. *)
Lemma analyze_commit_patterns_total (calls : nat) (depth : Z) :
  (Z.to_nat (max_depth - depth) <= calls)%nat ->
  analyze_commit_patterns_within calls depth = analyze_commit_patterns depth.
Proof.
  intros H. unfold analyze_commit_patterns.
  apply analyze_commit_patterns_within_enough; [exact H|lia].
Qed.

(** The equation of the source's recursion. *)
Lemma analyze_commit_patterns_unfold (depth : Z) :
  analyze_commit_patterns depth =
    if depth >=? max_depth then []
    else
      match git_log repo depth with
      | None => []
      | Some stdout =>
          match commit_level stdout depth with
          | None => []
          | Some patterns =>
              if depth <? max_depth - 1 then
                patterns ++ analyze_commit_patterns (depth + 1)
              else patterns
          end
      end.
Proof.
  unfold analyze_commit_patterns.
  destruct (Z.geb_spec depth max_depth) as [G|G].
  - destruct (Z.to_nat (max_depth - depth)); simpl;
      destruct (Z.geb_spec depth max_depth); auto; lia.
  - destruct (Z.to_nat (max_depth - depth)) as [|c] eqn:C; [lia|].
    simpl. destruct (Z.geb_spec depth max_depth); [lia|].
    destruct (git_log repo depth); [|reflexivity].
    destruct (commit_level s depth); [|reflexivity].
    destruct (Z.ltb_spec depth (max_depth - 1)); [|reflexivity].
    f_equal. apply analyze_commit_patterns_within_enough; lia.
Qed.

(** *** Depths *)

Lemma commit_level_depth (stdout : string) (d : Z) (patterns : list pattern) :
  commit_level stdout d = Some patterns ->
  Forall (fun p => depth p = d) patterns.
Proof.
  unfold commit_level. destruct (parse_commits (output_lines stdout)) as [cs|];
    simpl; [|discriminate].
  intros [= <-]. rewrite !Forall_app.
  unfold commit_frequency, author_diversity, message_patterns.
  repeat split.
  - destruct (_ <? _)%nat; repeat constructor.
  - destruct (_ <? _)%nat; repeat constructor.
  - destruct (message_keywords cs); repeat constructor.
Qed.

Lemma analyze_commit_patterns_within_depth (calls : nat) :
  forall d : Z,
    Forall (fun p => d <= depth p < max_depth)
      (analyze_commit_patterns_within calls d).
Proof.
  induction calls as [|calls IH]; intros d; simpl;
    destruct (Z.geb_spec d max_depth); try constructor.
  destruct (git_log repo d) as [stdout|]; [|constructor].
  destruct (commit_level stdout d) as [patterns|] eqn:L; [|constructor].
  assert (Forall (fun p => d <= depth p < max_depth) patterns) as Hp.
  { eapply Forall_impl; [exact (commit_level_depth _ _ _ L)|].
    simpl. intros p ->. lia. }
  destruct (d <? max_depth - 1); [|exact Hp].
  rewrite Forall_app. split; [exact Hp|].
  eapply Forall_impl; [apply IH|]. simpl. intros p ?. lia.
Qed.

Lemma analyze_file_patterns_depth (d : Z) :
  Forall (fun p => depth p = d /\ d < max_depth) (analyze_file_patterns d).
Proof.
  unfold analyze_file_patterns.
  destruct (Z.geb_spec d max_depth); [constructor|].
  destruct (git_ls_files repo) as [stdout|]; [|constructor].
  simpl. rewrite Forall_app. split.
  - destruct (file_types _); repeat constructor; simpl; lia.
  - destruct (_ <? _)%nat; repeat constructor; simpl; lia.
Qed.

Lemma check_genesis_files_depth (gfiles : list string) :
  forall patterns : list pattern,
    Forall (fun p => depth p = 0) patterns ->
    Forall (fun p => depth p = 0) (check_genesis_files gfiles patterns).
Proof.
  induction gfiles as [|g gfiles IH]; intros patterns H; simpl; [exact H|].
  destruct (open_read repo g); auto.
  apply IH. rewrite Forall_app. split; [exact H|]. repeat constructor.
Qed.

Lemma analyze_ethical_patterns_depth :
  Forall (fun p => depth p = 0) analyze_ethical_patterns.
Proof.
  unfold analyze_ethical_patterns.
  destruct (git_ls_files_md repo) as [stdout|]; [|constructor].
  apply check_genesis_files_depth.
  destruct (List.filter _ _); repeat constructor.
Qed.

(** C2: for every [max_depth >= 0], the output of [analyze_all] is the
    commit family, then the file family, then the ethical family; every
    commit pattern has a depth below [max_depth]; every file pattern has
    the depth that was asked for (0), which is below [max_depth]; every
    ethical pattern has depth 0, which does not exceed [max_depth].  So
    each record's depth is below [max_depth], or it is the requested 0 and
    at most [max_depth]. *)
Theorem analyze_all_depth_within_max_depth :
  0 <= max_depth ->
  analyze_all
  = analyze_commit_patterns 0 ++ analyze_file_patterns 0
      ++ analyze_ethical_patterns /\
  Forall (fun p => 0 <= depth p < max_depth) (analyze_commit_patterns 0) /\
  Forall (fun p => depth p = 0 /\ depth p < max_depth) (analyze_file_patterns 0) /\
  Forall (fun p => depth p = 0 /\ depth p <= max_depth) analyze_ethical_patterns /\
  Forall (fun p => depth p < max_depth \/ (depth p = 0 /\ depth p <= max_depth))
    analyze_all.
Proof.
  intros M.
  assert (C : Forall (fun p => 0 <= depth p < max_depth)
                (analyze_commit_patterns 0))
    by apply analyze_commit_patterns_within_depth.
  assert (F : Forall (fun p => depth p = 0 /\ depth p < max_depth)
                (analyze_file_patterns 0)).
  { eapply Forall_impl; [apply analyze_file_patterns_depth|].
    simpl. intros p [-> ?]. auto. }
  assert (E : Forall (fun p => depth p = 0 /\ depth p <= max_depth)
                analyze_ethical_patterns).
  { eapply Forall_impl; [apply analyze_ethical_patterns_depth|].
    simpl. intros p ->. auto. }
  split; [reflexivity|]. split; [exact C|]. split; [exact F|].
  split; [exact E|].
  unfold analyze_all. rewrite !Forall_app. repeat split.
  - eapply Forall_impl; [exact C|]. simpl. intros p ?. left. lia.
  - eapply Forall_impl; [exact F|]. simpl. intros p [? ?]. left. lia.
  - eapply Forall_impl; [exact E|]. simpl. intros p ?. right. lia.
Qed.

(** *** More of the commit analysis *)

Lemma commit_level_length (stdout : string) (d : Z) (patterns : list pattern) :
  commit_level stdout d = Some patterns -> (length patterns <= 3)%nat.
Proof.
  unfold commit_level. destruct (parse_commits (output_lines stdout)) as [cs|];
    simpl; [|discriminate].
  intros [= <-]. rewrite !length_app.
  unfold commit_frequency, author_diversity, message_patterns.
  destruct (_ <? _)%nat; destruct (_ <? _)%nat;
    destruct (message_keywords cs); simpl; lia.
Qed.

Lemma analyze_commit_patterns_within_length (calls : nat) :
  forall d : Z,
    (length (analyze_commit_patterns_within calls d) <= 3 * calls)%nat.
Proof.
  induction calls as [|calls IH]; intros d; simpl;
    destruct (d >=? max_depth); simpl; try lia.
  destruct (git_log repo d) as [stdout|]; simpl; [|lia].
  destruct (commit_level stdout d) as [patterns|] eqn:L; simpl; [|lia].
  pose proof (commit_level_length _ _ _ L).
  destruct (d <? max_depth - 1); [|lia].
  rewrite length_app. specialize (IH (d + 1)). lia.
Qed.

Lemma all_equal_sorted (d : Z) (l : list Z) :
  Forall (fun x => x = d) l -> StronglySorted Z.le l.
Proof.
  induction 1 as [|x l Hx Hl IH]; constructor; [exact IH|].
  subst x. eapply Forall_impl; [exact Hl|]. simpl. intros y ->. lia.
Qed.

Lemma analyze_commit_patterns_within_sorted (calls : nat) :
  forall d : Z,
    StronglySorted Z.le (map depth (analyze_commit_patterns_within calls d)).
Proof.
  induction calls as [|calls IH]; intros d; simpl;
    destruct (d >=? max_depth); try constructor.
  destruct (git_log repo d) as [stdout|]; [|constructor].
  destruct (commit_level stdout d) as [patterns|] eqn:L; [|constructor].
  assert (Hp : Forall (fun x => x = d) (map depth patterns)).
  { rewrite Forall_fmap. exact (commit_level_depth _ _ _ L). }
  destruct (d <? max_depth - 1); [|exact (all_equal_sorted d _ Hp)].
  rewrite map_app. apply StronglySorted_app.
  split; [|split; [exact (all_equal_sorted d _ Hp)|apply IH]].
  intros x1 x2 H1 H2. rewrite Forall_forall in Hp. rewrite (Hp _ H1).
  apply list_elem_of_fmap in H2 as (p & -> & Hin).
  pose proof (analyze_commit_patterns_within_depth calls (d + 1)) as B.
  rewrite Forall_forall in B. specialize (B _ Hin). simpl in B. lia.
Qed.

(** The commit patterns come shallow to deep: along the output of
    [analyze_commit_patterns] the depths never go down; and there are at
    most three patterns for each of the [max_depth] levels. *)
Theorem commit_patterns_shallow_to_deep :
  StronglySorted Z.le (map depth (analyze_commit_patterns 0)) /\
  (length (analyze_commit_patterns 0) <= 3 * Z.to_nat max_depth)%nat.
Proof.
  unfold analyze_commit_patterns. rewrite Z.sub_0_r. split.
  - apply analyze_commit_patterns_within_sorted.
  - apply analyze_commit_patterns_within_length.
Qed.

Lemma analyze_commit_patterns_within_stops (d : Z) (calls : nat) :
  level_fails d ->
  forall d0 : Z,
    d0 <= d ->
    Forall (fun p => depth p < d) (analyze_commit_patterns_within calls d0).
Proof.
  intros F. induction calls as [|calls IH]; intros d0 Le; simpl;
    destruct (d0 >=? max_depth); try constructor.
  destruct (git_log repo d0) as [stdout|] eqn:G; [|constructor].
  destruct (commit_level stdout d0) as [patterns|] eqn:L; [|constructor].
  assert (d0 < d) as Lt.
  { destruct (Z.eq_dec d0 d) as [->|]; [|lia].
    destruct F as [F|(out & F & F')]; [congruence|].
    rewrite G in F. inversion F; subst. congruence. }
  assert (Hp : Forall (fun p => depth p < d) patterns).
  { eapply Forall_impl; [exact (commit_level_depth _ _ _ L)|].
    simpl. intros p ->. exact Lt. }
  destruct (d0 <? max_depth - 1); [|exact Hp].
  rewrite Forall_app. split; [exact Hp|]. apply IH. lia.
Qed.

(** A level that fails ends the analysis there: if the [git log] of depth
    [d] raises, or a timestamp in its output is not an integer, the output
    holds the patterns of the levels above only, every depth below [d].
    Nothing of level [d] is reported and no deeper level is tried. *)
Theorem commit_patterns_stop_at_failed_level (d : Z) :
  0 <= d ->
  level_fails d ->
  Forall (fun p => depth p < d) (analyze_commit_patterns 0).
Proof.
  intros D F. apply analyze_commit_patterns_within_stops; assumption.
Qed.

Lemma analyze_commit_patterns_within_repeat
  (stdout : string) (commits : list commit) :
  (forall d : Z, git_log repo d = Some stdout) ->
  parse_commits (output_lines stdout) = Some commits ->
  forall (calls : nat) (d : Z),
    analyze_commit_patterns_within calls d
    = concat (map (fun i : nat => level_patterns commits (d + Z.of_nat i))
                (seq 0 (Nat.min calls (Z.to_nat (max_depth - d))))).
Proof.
  intros G P. induction calls as [|calls IH]; intros d; simpl.
  - destruct (d >=? max_depth); reflexivity.
  - destruct (Z.geb_spec d max_depth).
    + replace (Z.to_nat (max_depth - d)) with 0%nat by lia. reflexivity.
    + rewrite G. unfold commit_level at 1. rewrite P. simpl.
      fold (level_patterns commits d).
      destruct (Z.to_nat (max_depth - d)) as [|n] eqn:N; [lia|].
      cbn [seq map concat]. rewrite Z.add_0_r.
      destruct (Z.ltb_spec d (max_depth - 1)).
      * rewrite (IH (d + 1)). f_equal.
        replace (Z.to_nat (max_depth - (d + 1))) with n by lia.
        rewrite <- seq_shift, map_map. f_equal. apply map_ext.
        intros i. f_equal. lia.
      * assert (n = 0%nat) as -> by lia.
        rewrite Nat.min_0_r. simpl. rewrite app_nil_r. reflexivity.
Qed.

(** On a history that does not change during the run, every level that is
    run finds the same.  With room for [calls] nested calls, the output is
    the three observations on the commits, once for each depth from 0 up
    to the number of levels run, in that order, alike but for the depth
    they are tagged with; the levels run are [max_depth] or, when there is
    room for fewer, [calls]. *)
Theorem commit_patterns_repeat_per_depth
  (calls : nat) (stdout : string) (commits : list commit) :
  (forall d : Z, git_log repo d = Some stdout) ->
  parse_commits (output_lines stdout) = Some commits ->
  let levels := Nat.min calls (Z.to_nat max_depth) in
  analyze_commit_patterns_within calls 0
  = concat (map (fun i : nat => level_patterns commits (Z.of_nat i))
              (seq 0 levels)) /\
  length (analyze_commit_patterns_within calls 0)
  = (levels * length (level_patterns commits 0))%nat.
Proof.
  intros G P levels.
  assert (E : analyze_commit_patterns_within calls 0
              = concat (map (fun i : nat => level_patterns commits (Z.of_nat i))
                          (seq 0 levels))).
  { rewrite (analyze_commit_patterns_within_repeat stdout commits G P calls 0).
    subst levels. rewrite Z.sub_0_r. reflexivity. }
  split; [exact E|]. rewrite E.
  assert (L : forall d, length (level_patterns commits d)
                        = length (level_patterns commits 0)).
  { intros d. unfold level_patterns, commit_frequency, author_diversity,
      message_patterns. rewrite !length_app.
    destruct (_ <? _)%nat; destruct (_ <? _)%nat;
      destruct (message_keywords commits); reflexivity. }
  generalize levels as n. intros n.
  generalize 0%nat at 1 as k.
  induction n as [|n IH]; intros k; simpl; [reflexivity|].
  rewrite length_app, L, IH. reflexivity.
Qed.

Lemma parse_commits_fails_iff (lines : list string) :
  parse_commits lines = None <-> Exists bad_timestamp_line lines.
Proof.
  induction lines as [|line lines IH]; simpl.
  - split; [discriminate|]. intros H. inversion H.
  - rewrite Exists_cons.
    destruct (split_on "|" line)
      as [|p0 [|p1 [|p2 [|p3 [|p4 rest]]]]] eqn:S;
      try (destruct (nonempty line); rewrite IH;
           (split;
            [ intros H; right; exact H
            | intros [(q0 & q1 & q2 & q3 & q4 & qs & Q & _)|H];
              [rewrite S in Q; discriminate Q|exact H] ])).
    assert (nonempty line = true) as ->.
    { destruct line; [discriminate S|reflexivity]. }
    destruct (py_int p3) as [t|] eqn:T; simpl.
    + destruct (parse_commits lines) as [cs|]; simpl.
      * split; [discriminate|].
        intros [(q0 & q1 & q2 & q3 & q4 & qs & Q & N)|H].
        -- rewrite S in Q. inversion Q; subst. congruence.
        -- apply IH in H. discriminate H.
      * split; [|reflexivity]. intros _. right. apply IH. reflexivity.
    + split; [|reflexivity]. intros _. left.
      exists p0, p1, p2, p3, p4, rest. auto.
Qed.

(** The commit analysis of a level is all or nothing.  If one line of the
    [git log] output has five fields or more and a fourth field that is
    not an integer (an author name with a [|] in it is enough to shift the
    fields), the analysis returns no pattern at all, whatever the other
    lines hold. *)
Theorem one_bad_timestamp_voids_the_analysis (stdout : string) :
  git_log repo 0 = Some stdout ->
  Exists bad_timestamp_line (output_lines stdout) ->
  analyze_commit_patterns 0 = [].
Proof.
  intros G B. rewrite analyze_commit_patterns_unfold.
  destruct (0 >=? max_depth); [reflexivity|].
  rewrite G. unfold commit_level.
  apply parse_commits_fails_iff in B. rewrite B. reflexivity.
Qed.

(** *** Types and confidences *)

Ltac tag_listed :=
  repeat first [apply list_elem_of_here | apply list_elem_of_further].

Lemma commit_level_well_formed (stdout : string) (d : Z) (patterns : list pattern) :
  commit_level stdout d = Some patterns ->
  Forall (fun p => type p ∈ commit_types /\ in_unit_interval (confidence p))
    patterns.
Proof.
  unfold commit_level. destruct (parse_commits (output_lines stdout)) as [cs|];
    simpl; [|discriminate].
  intros [= <-]. rewrite !Forall_app.
  unfold commit_frequency, author_diversity, message_patterns, commit_types.
  repeat split.
  - destruct (_ <? _)%nat; repeat constructor; simpl; tag_listed.
  - destruct (_ <? _)%nat; repeat constructor; simpl; tag_listed.
  - destruct (message_keywords cs); repeat constructor; simpl; tag_listed.
Qed.

Lemma analyze_commit_patterns_within_well_formed (calls : nat) :
  forall d : Z,
    Forall (fun p => type p ∈ commit_types /\ in_unit_interval (confidence p))
      (analyze_commit_patterns_within calls d).
Proof.
  induction calls as [|calls IH]; intros d; simpl;
    destruct (d >=? max_depth); try constructor.
  destruct (git_log repo d) as [stdout|]; [|constructor].
  destruct (commit_level stdout d) as [patterns|] eqn:L; [|constructor].
  pose proof (commit_level_well_formed _ _ _ L) as Hp.
  destruct (d <? max_depth - 1); [|exact Hp].
  rewrite Forall_app. split; [exact Hp|apply IH].
Qed.

Lemma check_genesis_files_well_formed (gfiles : list string) :
  forall patterns : list pattern,
    Forall (fun p => type p ∈ ethical_types /\ in_unit_interval (confidence p))
      patterns ->
    Forall (fun p => type p ∈ ethical_types /\ in_unit_interval (confidence p))
      (check_genesis_files gfiles patterns).
Proof.
  induction gfiles as [|g gfiles IH]; intros patterns H; simpl; [exact H|].
  destruct (open_read repo g); auto.
  apply IH. rewrite Forall_app. split; [exact H|].
  repeat constructor; simpl; unfold ethical_types; tag_listed.
Qed.

(** Every pattern the analyzer makes has a confidence between 0 and 1 and
    one of seven types: the commit analysis makes [commit_frequency],
    [author_diversity] and [message_patterns]; the file analysis
    [file_types] and [directory_structure]; the ethical analysis
    [ethical_documentation] and [ethical_framework]. *)
Theorem analyze_all_patterns_well_formed :
  Forall (fun p => type p ∈ commit_types /\ in_unit_interval (confidence p))
    (analyze_commit_patterns 0) /\
  Forall (fun p => type p ∈ file_pattern_types /\ in_unit_interval (confidence p))
    (analyze_file_patterns 0) /\
  Forall (fun p => type p ∈ ethical_types /\ in_unit_interval (confidence p))
    analyze_ethical_patterns /\
  Forall (fun p => type p ∈ commit_types ++ file_pattern_types ++ ethical_types
                   /\ in_unit_interval (confidence p))
    analyze_all.
Proof.
  assert (C : Forall (fun p => type p ∈ commit_types
                               /\ in_unit_interval (confidence p))
                (analyze_commit_patterns 0))
    by apply analyze_commit_patterns_within_well_formed.
  assert (F : Forall (fun p => type p ∈ file_pattern_types
                               /\ in_unit_interval (confidence p))
                (analyze_file_patterns 0)).
  { unfold analyze_file_patterns.
    destruct (0 >=? max_depth); [constructor|].
    destruct (git_ls_files repo) as [stdout|]; [|constructor].
    simpl. rewrite Forall_app. unfold file_pattern_types. split.
    - destruct (file_types _); repeat constructor; simpl; tag_listed.
    - destruct (_ <? _)%nat; repeat constructor; simpl; tag_listed. }
  assert (E : Forall (fun p => type p ∈ ethical_types
                               /\ in_unit_interval (confidence p))
                analyze_ethical_patterns).
  { unfold analyze_ethical_patterns.
    destruct (git_ls_files_md repo) as [stdout|]; [|constructor].
    apply check_genesis_files_well_formed.
    destruct (List.filter _ _); repeat constructor; simpl;
      unfold ethical_types; tag_listed. }
  split; [exact C|]. split; [exact F|]. split; [exact E|].
  unfold analyze_all. rewrite !Forall_app. repeat split.
  - eapply Forall_impl; [exact C|]. cbv beta. intros p [T I].
    split; [|exact I]. rewrite elem_of_app. auto.
  - eapply Forall_impl; [exact F|]. cbv beta. intros p [T I].
    split; [|exact I]. rewrite !elem_of_app. auto.
  - eapply Forall_impl; [exact E|]. cbv beta. intros p [T I].
    split; [|exact I]. rewrite !elem_of_app. auto.
Qed.

(** *** The ethical analysis *)

(** The scan for genesis files stops at the first failure.  When the
    [git ls-files] call raises, nothing is reported, whatever files exist.
    When [genesis.json] is there but cannot be opened, no genesis file is
    reported, [GENESIS.md] included.  A genesis file is reported only if
    it opens, and there are at most three ethical patterns. *)
Theorem ethical_scan_stops_at_first_failure :
  (git_ls_files_md repo = None -> analyze_ethical_patterns = []) /\
  (open_read repo "genesis.json" = OtherError ->
   Forall (fun p => type p <> "ethical_framework") analyze_ethical_patterns) /\
  (length analyze_ethical_patterns <= 3)%nat /\
  (forall p : pattern,
     p ∈ analyze_ethical_patterns -> type p = "ethical_framework" ->
     exists gfile : string,
       gfile ∈ genesis_files /\ open_read repo gfile = Opened /\
       description p = "Genesis framework file found: " +:+ gfile).
Proof.
  unfold analyze_ethical_patterns, genesis_files.
  destruct (git_ls_files_md repo) as [stdout|].
  2:{ repeat split; try constructor; try (simpl; lia).
      intros p H. inversion H. }
  set (docs := List.filter nonempty (output_lines stdout)).
  split; [discriminate|]. simpl.
  destruct (open_read repo "genesis.json") eqn:O1;
    destruct (open_read repo "GENESIS.md") eqn:O2;
    destruct docs as [|doc docs]; simpl;
    (split; [try discriminate; intros _; repeat constructor; discriminate|]);
    (split; [lia|]);
    intros p Hp Ht;
    repeat (apply elem_of_cons in Hp as [->|Hp]; [simpl in Ht|]);
    try discriminate Ht; try (inversion Hp; fail);
    try (exists "genesis.json"; repeat split; [tag_listed|assumption]; fail);
    try (exists "GENESIS.md"; repeat split; [tag_listed|assumption]; fail).
Qed.

End Analyzer.

(** *** Reading one line of the log *)

Lemma split_on_before (sep : ascii) (s : string) :
  exists parts : list string, split_on sep s = before sep s :: parts.
Proof.
  induction s as [|c r (parts & IH)]; simpl; [eauto|].
  destruct (Ascii.eqb c sep); [eauto|]. rewrite IH. eauto.
Qed.

Lemma split_on_field (sep : ascii) (a b : string) :
  contains sep a = false ->
  split_on sep (a +:+ String sep b) = a :: split_on sep b.
Proof.
  induction a as [|c a IH]; simpl; intros H.
  - rewrite Ascii.eqb_refl. reflexivity.
  - apply orb_false_elim in H as [H1 H2].
    rewrite H1, (IH H2). reflexivity.
Qed.

(** A line of five fields is read field by field: hash, author, email and
    timestamp as they stand between the bars, the timestamp as an integer;
    the message is the fifth field, so a subject with a bar in it is cut at
    that bar.  A line of fewer than five fields adds no commit. *)
Theorem parse_commits_reads_five_fields
  (h a e ts m : string) (t : Z) (rest : list string) :
  contains "|" h = false ->
  contains "|" a = false ->
  contains "|" e = false ->
  contains "|" ts = false ->
  py_int ts = Some t ->
  parse_commits
    ((h +:+ "|" +:+ a +:+ "|" +:+ e +:+ "|" +:+ ts +:+ "|" +:+ m) :: rest)
  = (cons (Commit h a e t (before "|" m))) <$> parse_commits rest /\
  forall short : string,
    (length (split_on "|" short) < 5)%nat ->
    parse_commits (short :: rest) = parse_commits rest.
Proof.
  intros Hh Ha He Hts Ht. split.
  - cbn [parse_commits].
    assert (B : forall x : string, "|" +:+ x = String "|" x) by reflexivity.
    rewrite !B.
    assert (nonempty (h +:+ String "|" (a +:+ String "|" (e +:+ String "|"
              (ts +:+ String "|" m)))) = true) as ->
      by (destruct h; reflexivity).
    rewrite (split_on_field "|" h _ Hh), (split_on_field "|" a _ Ha),
      (split_on_field "|" e _ He), (split_on_field "|" ts _ Hts).
    destruct (split_on_before "|" m) as (parts & ->).
    rewrite Ht. simpl. destruct (parse_commits rest); reflexivity.
  - intros short L. cbn [parse_commits].
    destruct (split_on "|" short) as [|p0 [|p1 [|p2 [|p3 [|p4 ps]]]]];
      simpl in L; try lia; destruct (nonempty short); reflexivity.
Qed.

(** *** Counting *)

Lemma count_of_count_one (key word : string) (counts : list (string * Z)) :
  count_of key (count_one word counts)
  = count_of key counts + (if String.eqb key word then 1 else 0).
Proof.
  induction counts as [|[k n] rest IH]; simpl.
  - rewrite String.eqb_sym. destruct (String.eqb key word); reflexivity.
  - destruct (String.eqb_spec k word) as [->|Hkw]; simpl.
    + rewrite (String.eqb_sym key word).
      destruct (String.eqb word key); lia.
    + destruct (String.eqb_spec k key) as [->|Hkk].
      * destruct (String.eqb_spec key word); [congruence|lia].
      * exact IH.
Qed.

Lemma count_of_tally (key : string) (words : list string) :
  forall counts : list (string * Z),
    count_of key (tally words counts)
    = count_of key counts + occurrences key words.
Proof.
  unfold tally, occurrences.
  induction words as [|word words IH]; intros counts; simpl; [lia|].
  rewrite IH, count_of_count_one.
  destruct (String.eqb key word); simpl; lia.
Qed.

Lemma count_one_keys (word : string) (counts : list (string * Z)) :
  map fst (count_one word counts)
  = if decide (word ∈ map fst counts) then map fst counts
    else map fst counts ++ [word].
Proof.
  induction counts as [|[k n] rest IH]; simpl.
  - reflexivity.
  - destruct (String.eqb_spec k word) as [->|Hkw]; simpl.
    + rewrite decide_True by apply list_elem_of_here. reflexivity.
    + rewrite IH. destruct (decide (word ∈ map fst rest)) as [H|H].
      * rewrite decide_True by (apply list_elem_of_further, H). reflexivity.
      * rewrite decide_False; [reflexivity|].
        rewrite elem_of_cons. intros [?|?]; congruence.
Qed.

Lemma count_one_sound (word : string) (counts : list (string * Z)) :
  NoDup (map fst counts) -> Forall (fun kn => 1 <= snd kn) counts ->
  NoDup (map fst (count_one word counts)) /\
  Forall (fun kn => 1 <= snd kn) (count_one word counts).
Proof.
  intros N P. split.
  - rewrite count_one_keys. case_decide as H; [exact N|].
    apply NoDup_app. split; [exact N|]. split; [|apply NoDup_singleton].
    intros x Hx Hw. apply list_elem_of_singleton in Hw. congruence.
  - clear N. induction P as [|[k n] rest Hk Hrest IH]; simpl.
    + repeat constructor. simpl. lia.
    + destruct (String.eqb k word); constructor; auto. simpl in *. lia.
Qed.

Lemma tally_sound (words : list string) :
  forall counts : list (string * Z),
    NoDup (map fst counts) -> Forall (fun kn => 1 <= snd kn) counts ->
    NoDup (map fst (tally words counts)) /\
    Forall (fun kn => 1 <= snd kn) (tally words counts).
Proof.
  unfold tally. induction words as [|word words IH]; intros counts N P; simpl;
    [auto|].
  destruct (count_one_sound word counts N P). apply IH; assumption.
Qed.

Lemma count_words_tally (words : list string) (counts : list (string * Z)) :
  count_words counts words
  = tally (List.filter (fun word => (3 <? String.length word)%nat) words) counts.
Proof.
  unfold count_words, tally. revert counts.
  induction words as [|word words IH]; intros counts; simpl; [reflexivity|].
  destruct (3 <? String.length word)%nat; simpl; apply IH.
Qed.

Lemma message_keywords_tally (commits : list commit) :
  message_keywords commits = tally (counted_words commits) [].
Proof.
  unfold message_keywords, counted_words. generalize (@nil (string * Z)).
  induction commits as [|c commits IH]; intros counts; simpl; [reflexivity|].
  rewrite IH, count_words_tally. unfold tally. rewrite fold_left_app.
  reflexivity.
Qed.

(** The count of a keyword is the number of times the word stands in the
    commit messages, lowercased, among the words longer than three
    characters; the words that do not stand there have no count.  No
    keyword is listed twice. *)
Theorem keyword_counts_are_occurrences (commits : list commit) (key : string) :
  count_of key (message_keywords commits)
  = occurrences key (counted_words commits) /\
  NoDup (map fst (message_keywords commits)) /\
  Forall (fun kn => 1 <= snd kn) (message_keywords commits).
Proof.
  rewrite message_keywords_tally. split.
  - rewrite count_of_tally. reflexivity.
  - apply tally_sound; constructor.
Qed.

Lemma split_on_parts_clean (sep : ascii) (s : string) :
  Forall (fun part => contains sep part = false) (split_on sep s).
Proof.
  induction s as [|c r IH]; simpl; [repeat constructor|].
  destruct (Ascii.eqb c sep) eqn:E; [constructor; [reflexivity|exact IH]|].
  destruct (split_on sep r) as [|part parts]; [repeat constructor; simpl|].
  - rewrite E. reflexivity.
  - inversion IH; subst. constructor; [|assumption]. simpl.
    rewrite E. assumption.
Qed.

Lemma last_Forall {A : Type} (P : A -> Prop) (l : list A) (d : A) :
  Forall P l -> l <> [] -> P (List.last l d).
Proof.
  induction 1 as [|x l Hx Hl IH]; intros N; [congruence|].
  destruct l as [|y l]; [exact Hx|]. apply IH. discriminate.
Qed.

Lemma file_types_tally (files : list string) :
  file_types files = tally (counted_suffixes files) [].
Proof.
  unfold file_types, counted_suffixes, tally. generalize (@nil (string * Z)).
  induction files as [|file files IH]; intros counts; simpl; [reflexivity|].
  destruct (contains "." file); simpl; apply IH.
Qed.

(** The count of a file type is the number of tracked files with a dot in
    their path and that text after the last dot.  No type is listed twice,
    and no type has a dot in it. *)
Theorem file_type_counts_are_occurrences (files : list string) (ext : string) :
  count_of ext (file_types files) = occurrences ext (counted_suffixes files) /\
  NoDup (map fst (file_types files)) /\
  Forall (fun kn => 1 <= snd kn) (file_types files) /\
  Forall (fun suffix => contains "." suffix = false) (counted_suffixes files).
Proof.
  rewrite file_types_tally. split; [|split; [|split]].
  - rewrite count_of_tally. reflexivity.
  - apply tally_sound; constructor.
  - apply tally_sound; constructor.
  - unfold counted_suffixes. rewrite Forall_fmap.
    apply Forall_forall. intros file _. simpl.
    pose proof (split_on_parts_clean "." file) as C.
    destruct (split_on_before "." file) as (parts & E). rewrite E in *.
    apply last_Forall; [exact C|discriminate].
Qed.

(** *** The groups of the report *)

Lemma of_type_snoc (t : string) (seen : list pattern) (p : pattern) :
  of_type t (seen ++ [p])
  = of_type t seen ++ (if String.eqb (type p) t then [p] else []).
Proof. unfold of_type. rewrite List.filter_app. reflexivity. Qed.

Definition group_sound (seen : list pattern) (tg : string * list pattern)
  : Prop :=
  snd tg = of_type (fst tg) seen /\ snd tg <> [].

Lemma group_append_sound (p : pattern) (seen : list pattern) :
  forall groups : list (string * list pattern),
    NoDup (map fst groups) ->
    Forall (group_sound seen) groups ->
    (type p ∉ map fst groups -> of_type (type p) seen = []) ->
    NoDup (map fst (group_append p groups)) /\
    Forall (group_sound (seen ++ [p])) (group_append p groups) /\
    type p ∈ map fst (group_append p groups) /\
    (forall t : string,
       t ∈ map fst (group_append p groups) ->
       t ∈ map fst groups \/ t = type p).
Proof.
  induction groups as [|[t ms] rest IH]; intros N F E; simpl.
  - repeat split.
    + apply NoDup_singleton.
    + repeat constructor; simpl.
      * rewrite of_type_snoc, String.eqb_refl, E; [reflexivity|].
        intros H. inversion H.
      * discriminate.
    + apply list_elem_of_here.
    + intros t H. apply list_elem_of_singleton in H. auto.
  - inversion N as [|? ? Nt Nrest]; subst.
    inversion F as [|? ? [Ft Fne] Frest]; subst. simpl in Ft, Fne.
    destruct (String.eqb_spec t (type p)) as [->|Htp]; simpl.
    + repeat split.
      * exact N.
      * constructor.
        -- split; simpl.
           ++ rewrite of_type_snoc, String.eqb_refl, Ft. reflexivity.
           ++ destruct ms; discriminate.
        -- rewrite Forall_forall in Frest |- *. intros [t' ms'] Hin.
           destruct (Frest _ Hin) as [F1 F2]. simpl in F1, F2.
           split; simpl; [|exact F2].
           rewrite of_type_snoc.
           destruct (String.eqb_spec (type p) t') as [<-|]; [|
             rewrite app_nil_r; exact F1].
           exfalso. apply Nt. apply list_elem_of_fmap.
           exists (type p, ms'). auto.
      * apply list_elem_of_here.
      * intros t H. auto.
    + destruct (IH Nrest Frest) as (N' & F' & I' & K').
      { intros H. apply E. simpl. rewrite elem_of_cons.
        intros [?|?]; congruence. }
      repeat split.
      * constructor; [|exact N'].
        intros H. destruct (K' _ H) as [?|?]; [contradiction|congruence].
      * constructor; [|exact F'].
        split; simpl; [|exact Fne].
        rewrite of_type_snoc.
        destruct (String.eqb_spec (type p) t); [congruence|].
        rewrite app_nil_r. exact Ft.
      * apply list_elem_of_further, I'.
      * intros t' H. apply elem_of_cons in H as [->|H].
        -- left. apply list_elem_of_here.
        -- destruct (K' _ H); [left; apply list_elem_of_further|right]; auto.
Qed.

Lemma patterns_by_type_sound (patterns : list pattern) :
  NoDup (map fst (patterns_by_type patterns)) /\
  Forall (group_sound patterns) (patterns_by_type patterns) /\
  (forall t : string,
     t ∉ map fst (patterns_by_type patterns) -> of_type t patterns = []).
Proof.
  unfold patterns_by_type.
  assert (G : forall (todo seen : list pattern) groups,
            NoDup (map fst groups) ->
            Forall (group_sound seen) groups ->
            (forall t, t ∉ map fst groups -> of_type t seen = []) ->
            let result := fold_left (fun g p => group_append p g) todo groups in
            NoDup (map fst result) /\
            Forall (group_sound (seen ++ todo)) result /\
            (forall t, t ∉ map fst result -> of_type t (seen ++ todo) = [])).
  { induction todo as [|p todo IH]; intros seen groups N F E; simpl.
    - rewrite app_nil_r. auto.
    - destruct (group_append_sound p seen groups N F (E _))
        as (N' & F' & I' & K').
      replace (seen ++ p :: todo) with ((seen ++ [p]) ++ todo)
        by (rewrite <- app_assoc; reflexivity).
      apply IH; [exact N'|exact F'|].
      intros t Ht. rewrite of_type_snoc.
      destruct (String.eqb_spec (type p) t) as [<-|]; [contradiction|].
      rewrite app_nil_r. apply E. intros H. apply Ht.
      clear - H. induction groups as [|[t' ms] rest IH]; simpl in *;
        [inversion H|].
      destruct (String.eqb t' (type p)); simpl; [exact H|].
      apply elem_of_cons in H as [->|H];
        [apply list_elem_of_here|apply list_elem_of_further, IH, H]. }
  apply (G patterns [] []); [constructor|constructor|reflexivity].
Qed.

Lemma group_append_perm (p : pattern) (groups : list (string * list pattern)) :
  concat (map snd (group_append p groups)) ≡ₚ concat (map snd groups) ++ [p].
Proof.
  induction groups as [|[t ms] rest IH]; simpl; [reflexivity|].
  destruct (String.eqb t (type p)); simpl.
  - rewrite <- !app_assoc. apply Permutation_app_head, Permutation_app_comm.
  - rewrite IH, app_assoc. reflexivity.
Qed.

Lemma patterns_by_type_perm (patterns : list pattern) :
  concat (map snd (patterns_by_type patterns)) ≡ₚ patterns.
Proof.
  unfold patterns_by_type.
  assert (G : forall todo groups,
            concat (map snd (fold_left (fun g p => group_append p g) todo groups))
            ≡ₚ concat (map snd groups) ++ todo).
  { induction todo as [|p todo IH]; intros groups; simpl.
    - rewrite app_nil_r. reflexivity.
    - rewrite IH, group_append_perm, <- app_assoc. reflexivity. }
  apply (G patterns []).
Qed.

Lemma insert_by_type_perm (x : string * list pattern)
  (sorted : list (string * list pattern)) :
  insert_by_type x sorted ≡ₚ x :: sorted.
Proof.
  induction sorted as [|y rest IH]; simpl; [reflexivity|].
  destruct (String.ltb (fst y) (fst x)); [|reflexivity].
  rewrite IH. apply Permutation_swap.
Qed.

Lemma sorted_by_type_perm (items : list (string * list pattern)) :
  sorted_by_type items ≡ₚ items.
Proof.
  induction items as [|x items IH]; simpl; [reflexivity|].
  rewrite insert_by_type_perm, IH. reflexivity.
Qed.

Lemma concat_groups_perm (g1 g2 : list (string * list pattern)) :
  g1 ≡ₚ g2 -> concat (map snd g1) ≡ₚ concat (map snd g2).
Proof.
  induction 1 as [|x l l' H IH|x y l|l l' l'' H1 IH1 H2 IH2]; simpl.
  - reflexivity.
  - rewrite IH. reflexivity.
  - rewrite !app_assoc. apply Permutation_app_tail, Permutation_app_comm.
  - etrans; eassumption.
Qed.

Lemma insert_by_type_sorted (x : string * list pattern)
  (sorted : list (string * list pattern)) :
  fst x ∉ map fst sorted ->
  Sorted type_before sorted ->
  Sorted type_before (insert_by_type x sorted).
Proof.
  induction sorted as [|y rest IH]; intros N H; simpl.
  - repeat constructor.
  - unfold String.ltb.
    destruct (String.compare (fst y) (fst x)) eqn:C.
    + apply String.compare_eq_iff in C. exfalso. apply N.
      simpl. rewrite C. apply list_elem_of_here.
    + inversion H as [|? ? Hrest Hhd]; subst.
      constructor.
      * apply IH; [|exact Hrest]. intros K. apply N.
        apply list_elem_of_further, K.
      * destruct rest as [|z rest]; simpl.
        -- constructor. exact C.
        -- unfold String.ltb. destruct (String.compare (fst z) (fst x));
             constructor; try exact C; inversion Hhd; assumption.
    + constructor; [exact H|]. constructor. unfold type_before.
      rewrite String.compare_antisym, C. reflexivity.
Qed.

Lemma sorted_by_type_sorted (items : list (string * list pattern)) :
  NoDup (map fst items) -> Sorted type_before (sorted_by_type items).
Proof.
  induction items as [|x items IH]; intros N; simpl; [constructor|].
  inversion N as [|? ? Nx Nitems]; subst.
  apply insert_by_type_sorted; [|apply IH, Nitems].
  intros H. apply Nx.
  apply list_elem_of_fmap in H as (y & E & Hy).
  apply list_elem_of_fmap. exists y. split; [exact E|].
  rewrite <- (sorted_by_type_perm items). exact Hy.
Qed.

(** The report groups the patterns by type.  The groups come in the order
    of their types, no type twice; the group of a type holds the patterns
    of that type, all of them, in the order they were found, and is never
    empty; together the groups hold the patterns that were given, each
    once. *)
Theorem report_groups_by_type (patterns : list pattern) :
  let groups := sorted_by_type (patterns_by_type patterns) in
  Sorted type_before groups /\
  Forall (fun tg => snd tg = of_type (fst tg) patterns /\ snd tg <> []) groups /\
  concat (map snd groups) ≡ₚ patterns /\
  (forall p : pattern, p ∈ patterns -> type p ∈ map fst groups).
Proof.
  intros groups. subst groups.
  destruct (patterns_by_type_sound patterns) as (N & F & E).
  split; [apply sorted_by_type_sorted, N|]. split; [|split].
  - rewrite (sorted_by_type_perm (patterns_by_type patterns)). exact F.
  - rewrite (concat_groups_perm _ _ (sorted_by_type_perm _)).
    apply patterns_by_type_perm.
  - intros p Hp.
    destruct (decide (type p ∈ map fst (sorted_by_type (patterns_by_type patterns))))
      as [H|H]; [exact H|].
    rewrite (sorted_by_type_perm (patterns_by_type patterns)) in H.
    specialize (E _ H). exfalso.
    apply list_elem_of_In in Hp.
    assert (In p (of_type (type p) patterns)) as K.
    { unfold of_type. apply List.filter_In. split; [exact Hp|].
      apply String.eqb_refl. }
    rewrite E in K. exact K.
Qed.

Lemma pattern_line_is_no_heading (p : pattern) :
  is_group_heading (pattern_line p) = false.
Proof.
  unfold pattern_line, times. destruct (Z.to_nat (depth p)); reflexivity.
Qed.

Lemma group_lines_split (groups : list (string * list pattern)) :
  List.filter (fun line => negb (is_group_heading line))
    (concat (map group_lines groups))
  = map pattern_line (concat (map snd groups)) /\
  List.filter is_group_heading (concat (map group_lines groups))
  = map group_heading groups.
Proof.
  assert (K : forall ps : list pattern,
            List.filter (fun line => negb (is_group_heading line))
              (map pattern_line ps) = map pattern_line ps /\
            List.filter is_group_heading (map pattern_line ps) = []).
  { induction ps as [|p ps [IH1 IH2]]; simpl; [auto|].
    rewrite pattern_line_is_no_heading. simpl. rewrite IH1, IH2. auto. }
  induction groups as [|g groups [IH1 IH2]]; simpl; [auto|].
  rewrite !List.filter_app, IH1, IH2, map_app.
  destruct (K (snd g)) as [K1 K2]. rewrite K1, K2. auto.
Qed.

(** The report has one line for each pattern.  Its lines are the nine
    opening lines, whose sixth announces the number of patterns, then the
    groups, then the two closing lines.  Among the lines of the groups,
    those that are not headings are the lines of the patterns, group after
    group: the lines of the given patterns, each once; the headings are
    those of the groups, one for each type. *)
Theorem report_has_one_line_per_pattern
  (max_depth : Z) (patterns : list pattern) (now : string) :
  let groups := sorted_by_type (patterns_by_type patterns) in
  exists body : list string,
    report_lines max_depth patterns now
    = report_opening max_depth (length patterns) now ++ body ++ report_closing /\
    List.filter (fun line => negb (is_group_heading line)) body
    = map pattern_line (concat (map snd groups)) /\
    List.filter (fun line => negb (is_group_heading line)) body
    ≡ₚ map pattern_line patterns /\
    List.filter is_group_heading body = map group_heading groups /\
    length body = (length groups + length patterns)%nat /\
    nth_error (report_lines max_depth patterns now) 5
    = Some ("Patterns Detected: " +:+ str_nat (length patterns)).
Proof.
  intros groups.
  assert (P : concat (map snd groups) ≡ₚ patterns).
  { subst groups. rewrite (concat_groups_perm _ _ (sorted_by_type_perm _)).
    apply patterns_by_type_perm. }
  destruct (group_lines_split groups) as [F1 F2].
  exists (concat (map group_lines groups)).
  split; [reflexivity|]. split; [exact F1|]. split.
  { rewrite F1. apply (fmap_Permutation pattern_line), P. }
  split; [exact F2|]. split; [|reflexivity].
  assert (L : forall gs : list (string * list pattern),
            length (concat (map group_lines gs))
            = (length gs + length (concat (map snd gs)))%nat).
  { induction gs as [|g gs IH]; simpl; [reflexivity|].
    rewrite !length_app, length_map, IH. lia. }
  rewrite L, (Permutation_length P). reflexivity.
Qed.

(** *** Keywords are longer than three characters *)

Lemma count_one_long (key : string) (counts : list (string * Z)) :
  (3 < String.length key)%nat ->
  Forall long_keyword counts ->
  Forall long_keyword (count_one key counts).
Proof.
  intros K. induction 1 as [|[k n] rest Hk Hrest IH]; simpl.
  - repeat constructor. exact K.
  - destruct (String.eqb k key); constructor; auto.
Qed.

Lemma count_words_long (words : list string) :
  forall counts : list (string * Z),
    Forall long_keyword counts ->
    Forall long_keyword (count_words counts words).
Proof.
  unfold count_words.
  induction words as [|word words IH]; intros counts H; simpl; [exact H|].
  apply IH. destruct (Nat.ltb_spec 3 (String.length word)); [|exact H].
  apply count_one_long; assumption.
Qed.

Lemma message_keywords_long (commits : list commit) :
  Forall long_keyword (message_keywords commits).
Proof.
  unfold message_keywords.
  assert (G : forall counts, Forall long_keyword counts ->
            Forall long_keyword
              (fold_left
                 (fun counts c =>
                    count_words counts (split_whitespace (lower (message c))))
                 commits counts)).
  { induction commits as [|c commits IH]; intros counts H; simpl; [exact H|].
    apply IH, count_words_long, H. }
  apply G. constructor.
Qed.

Lemma insert_by_count_long (x : string * Z) (sorted : list (string * Z)) :
  long_keyword x -> Forall long_keyword sorted ->
  Forall long_keyword (insert_by_count x sorted).
Proof.
  intros X. induction 1 as [|y rest Hy Hrest IH]; simpl.
  - repeat constructor. exact X.
  - destruct (snd x <? snd y); repeat constructor; auto.
Qed.

Lemma top_keywords_long (commits : list commit) :
  Forall long_keyword (top_keywords commits).
Proof.
  unfold top_keywords. apply Forall_take. unfold sorted_by_count.
  induction (message_keywords_long commits) as [|x rest Hx Hrest IH]; simpl.
  - constructor.
  - apply insert_by_count_long; assumption.
Qed.

(** *** The sort *)





(** Equal counts keep the order they came in. *)
Example sorted_by_count_stable :
  sorted_by_count [("a", 1); ("b", 2); ("c", 1); ("d", 2); ("e", 3)]
  = [("e", 3); ("b", 2); ("d", 2); ("a", 1); ("c", 1)].
Proof. reflexivity. Qed.

(** *** The string operations on small inputs *)

Example split_on_keeps_empty_parts :
  split_on "|" "a|b||c" = ["a"; "b"; ""; "c"] /\ split_on "|" "" = [""].
Proof. split; reflexivity. Qed.

Example split_whitespace_drops_runs :
  split_whitespace "  fix  bug now " = ["fix"; "bug"; "now"].
Proof. reflexivity. Qed.

Example py_int_accepts :
  py_int " 12 " = Some 12 /\ py_int "+1_000" = Some 1000 /\
  py_int "-7" = Some (-7) /\ py_int "007" = Some 7.
Proof. repeat split; reflexivity. Qed.

Example py_int_rejects :
  py_int "" = None /\ py_int "1__2" = None /\ py_int "_1" = None /\
  py_int "1_" = None /\ py_int "12a" = None.
Proof. repeat split; reflexivity. Qed.

(** [int] does not pass over the separators 28 to 31, and refuses a
    numeral of more digits than the limit. *)
Example py_int_rejects_separator_and_long_numeral :
  py_int (String "028"%char "12") = None /\
  py_int (repeat_string "1" 4301) = None /\
  (exists n : Z, py_int (repeat_string "1" 4300) = Some n).
Proof.
  split; [vm_compute; reflexivity|]. split; [vm_compute; reflexivity|].
  destruct (py_int (repeat_string "1" 4300)) as [n|] eqn:E; [eauto|].
  vm_compute in E. discriminate E.
Qed.

Example repr_counts_of_two :
  repr_counts [("py", 3); ("md", 12)] = "{'py': 3, 'md': 12}".
Proof. reflexivity. Qed.

(** With [max_depth = 0] only the ethical family reports, at depth 0. *)
Example analyze_all_at_max_depth_zero :
  map (fun p => (type p, depth p)) (analyze_all 0 sample_repository)
  = [("ethical_documentation", 0); ("ethical_framework", 0)].
Proof. vm_compute. reflexivity. Qed.

(** *** The top keyword *)



(** *** The scenario of four commits *)

Lemma scenario_output :
  analyze_commit_patterns 2 scenario 0
  = scenario_patterns 0 ++ scenario_patterns 1.
Proof. vm_compute. reflexivity. Qed.

(** C8, counterexample: in the scenario the keyword observation does not
    start with ["now"].  The word has three characters, and only words
    longer than three are counted. *)
Lemma scenario_top_keyword_not_now : ~ observations_as_specified 2 scenario.
Proof.
  intros (p1 & p2 & p3 & q1 & q2 & q3 & O & _ & _ & (_ & _ & others & K) & _).
  rewrite scenario_output in O. inversion O; subst. clear O.
  simpl in K. destruct others; simpl in K; discriminate K.
Qed.

(** C8 (as amended): in the scenario, commit-pattern analysis with
    [max_depth = 2] gives, at depth 0, the frequency observation
    ["Repository has 4 commits"], the author observation
    ["2 unique author(s) detected"] and the keyword observation
    ["Top keywords: feature, refine, logic, cleanup"]; then the same three
    at depth 1, after the ones of depth 0.  The keywords are the words of
    more than three characters, each counted once here and so in the order
    they were first seen; in no repository is a word of three characters,
    such as ["now"], among the top keywords. *)
Theorem scenario_commit_patterns :
  analyze_commit_patterns 2 scenario 0
  = scenario_patterns 0 ++ scenario_patterns 1 /\
  (exists commits : list commit,
     parse_commits (output_lines scenario_log) = Some commits /\
     length commits = 4%nat /\
     size (authors commits) = 2%nat /\
     top_keywords commits
     = [("feature", 1); ("refine", 1); ("logic", 1); ("cleanup", 1)]) /\
  (forall commits : list commit, "now" ∉ map fst (top_keywords commits)).
Proof.
  split; [exact scenario_output|]. split.
  - eexists. split; [vm_compute; reflexivity|].
    split; [reflexivity|]. split; vm_compute; reflexivity.
  - intros commits H. apply list_elem_of_fmap in H as ([k n] & E & I).
    pose proof (top_keywords_long commits) as L.
    rewrite Forall_forall in L. specialize (L _ I).
    unfold long_keyword in L. simpl in E, L. subst k. simpl in L. lia.
Qed.

Lemma analyze_all_depth_within_max_depth_witness :
  0 <= 2 /\
  Forall (fun p => depth p < 2 \/ (depth p = 0 /\ depth p <= 2))
    (analyze_all 2 sample_repository).
Proof.
  split; [discriminate|].
  apply (analyze_all_depth_within_max_depth 2 sample_repository). discriminate.
Defined.

(** *** More runs on concrete repositories *)

(** The four commits of the scenario, as parsed. *)
Definition scenario_commits : list commit :=
  [ Commit "4d2a" "Ada" "ada@example.org" 1700000300 "fix bug now";
    Commit "3c19" "Grace" "grace@example.org" 1700000200 "add feature now";
    Commit "2b08" "Ada" "ada@example.org" 1700000100 "now refine logic";
    Commit "1af7" "Grace" "grace@example.org" 1700000000 "now cleanup" ].

Lemma scenario_log_parses :
  parse_commits (output_lines scenario_log) = Some scenario_commits.
Proof. vm_compute. reflexivity. Defined.

(** A repository whose [git log] fails the second time it is run. *)
Definition flaky_repository : repository :=
  {| git_log := fun d => if d =? 1 then None else Some scenario_log;
     git_ls_files := None;
     git_ls_files_md := None;
     open_read := fun _ => NotFound |}.

Lemma flaky_repository_fails_at_1 : level_fails flaky_repository 1.
Proof. left. reflexivity. Defined.

Lemma commit_patterns_stop_at_failed_level_witness :
  0 <= 1 /\ level_fails flaky_repository 1 /\
  Forall (fun p => depth p < 1) (analyze_commit_patterns 3 flaky_repository 0).
Proof.
  assert (Z01 : 0 <= 1) by discriminate.
  split; [exact Z01|]. split; [exact flaky_repository_fails_at_1|].
  exact (commit_patterns_stop_at_failed_level 3 flaky_repository 1 Z01
           flaky_repository_fails_at_1).
Defined.

Lemma commit_patterns_repeat_per_depth_witness :
  (forall d : Z, git_log scenario d = Some scenario_log) /\
  parse_commits (output_lines scenario_log) = Some scenario_commits /\
  length (analyze_commit_patterns_within 4 scenario 3 0) = 9%nat /\
  length (analyze_commit_patterns_within 4 scenario 7 0) = 12%nat.
Proof.
  assert (G : forall d : Z, git_log scenario d = Some scenario_log)
    by reflexivity.
  split; [exact G|]. split; [exact scenario_log_parses|]. split.
  - destruct (commit_patterns_repeat_per_depth 4 scenario 3 scenario_log
                scenario_commits G scenario_log_parses) as [_ L].
    rewrite L. vm_compute. reflexivity.
  - destruct (commit_patterns_repeat_per_depth 4 scenario 7 scenario_log
                scenario_commits G scenario_log_parses) as [_ L].
    rewrite L. vm_compute. reflexivity.
Defined.

(** A history in which one author's name has a bar in it. *)
Definition barred_log : string :=
  join (String LF EmptyString)
    [ "4d2a|Ada|ada@example.org|1700000300|fix bug now";
      "3c19|Grace|Hopper|grace@example.org|1700000200|add feature now" ].

Definition barred_repository : repository :=
  {| git_log := fun _ => Some barred_log;
     git_ls_files := None;
     git_ls_files_md := None;
     open_read := fun _ => NotFound |}.

Lemma barred_log_has_bad_line :
  Exists bad_timestamp_line (output_lines barred_log).
Proof.
  assert (E : output_lines barred_log
              = [ "4d2a|Ada|ada@example.org|1700000300|fix bug now";
                  "3c19|Grace|Hopper|grace@example.org|1700000200|add feature now" ])
    by (vm_compute; reflexivity).
  rewrite E. apply Exists_cons_tl, Exists_cons_hd.
  exists "3c19", "Grace", "Hopper", "grace@example.org", "1700000200",
    ["add feature now"].
  split; vm_compute; reflexivity.
Defined.

Lemma one_bad_timestamp_voids_the_analysis_witness :
  git_log barred_repository 0 = Some barred_log /\
  Exists bad_timestamp_line (output_lines barred_log) /\
  analyze_commit_patterns 2 barred_repository 0 = [].
Proof.
  assert (G : git_log barred_repository 0 = Some barred_log) by reflexivity.
  split; [exact G|]. split; [exact barred_log_has_bad_line|].
  exact (one_bad_timestamp_voids_the_analysis 2 barred_repository barred_log
           G barred_log_has_bad_line).
Defined.

Lemma parse_commits_reads_five_fields_witness :
  py_int "1700000300" = Some 1700000300 /\
  parse_commits ["4d2a|Ada|ada@example.org|1700000300|fix a|b"]
  = Some [Commit "4d2a" "Ada" "ada@example.org" 1700000300 "fix a"].
Proof.
  assert (T : py_int "1700000300" = Some 1700000300)
    by (vm_compute; reflexivity).
  split; [exact T|].
  exact (proj1 (parse_commits_reads_five_fields "4d2a" "Ada" "ada@example.org"
                  "1700000300" "fix a|b" 1700000300 []
                  eq_refl eq_refl eq_refl eq_refl T)).
Defined.



End PatternAnalyzer.
